(** * Backtest analytics of the Freqtrade analysis notebook

    The notebook [DutchCryptoDad_Freqtrade_analysis_sheet_Jupyter_Notebook.py]
    contains one piece of own logic: cell In[20], which turns the
    [daily_profit] list of the backtest statistics into the [equity_daily]
    column that is plotted.  It is embedded below as a program over the
    notebook's global variables, with Python's exceptions and with IEEE
    binary64 numbers (Rocq's primitive floats) for Python's [float].

    The trade-parallelism analysis and the grouped trade summary are only
    called by the notebook ([analyze_trade_parallelism], [groupby] /
    [value_counts]); their models follow the written specification. *)

From Stdlib Require Import Floats ZArith List String Bool Lia.
From Stdlib Require Import Permutation Sorted OrderedTypeEx.
Import ListNotations.

(** ** Python values, exceptions and the two built-ins the cell uses *)

Module Py.

(** The Python values a field of the decoded statistics is taken from:
    integers, floats, strings and [None]. *)
Inductive pyobj : Type :=
| PyInt (z : Z)
| PyFloat (f : float)
| PyStr (s : string)
| PyNone.

Inductive pyexn : Type :=
| ValueError
| TypeError
| OverflowError.

Inductive result (A : Type) : Type :=
| Ok (a : A)
| Raise (e : pyexn).
Arguments Ok {A} a.
Arguments Raise {A} e.

Definition rbind {A B : Type} (r : result A) (k : A -> result B) : result B :=
  match r with
  | Ok a => k a
  | Raise e => Raise e
  end.

(** The binary64 number nearest to an integer (ties to even). *)
Definition Z2float (z : Z) : float :=
  SF2Prim (binary_normalize prec emax z 0 false).

(** [float(n)] and the implicit conversion of an [int] operand: Python
    raises [OverflowError] when the integer is beyond the binary64 range. *)
Definition float_of_int (z : Z) : result float :=
  let f := Z2float z in
  if PrimFloat.is_infinity f then Raise OverflowError else Ok f.

Section Builtins.

(** Python's parser of a string into a float ([None]: the string is not a
    number and [float] raises [ValueError]).  It belongs to the language
    runtime and is taken as given. *)
Variable str_to_float : string -> option float.

(** [float(x)]. *)
Definition py_float (x : pyobj) : result float :=
  match x with
  | PyInt z => float_of_int z
  | PyFloat f => Ok f
  | PyStr s =>
      match str_to_float s with
      | Some f => Ok f
      | None => Raise ValueError
      end
  | PyNone => Raise TypeError
  end.

End Builtins.

(** [a + b]. *)
Definition py_add (a b : pyobj) : result pyobj :=
  match a, b with
  | PyInt x, PyInt y => Ok (PyInt (x + y))
  | PyInt x, PyFloat y =>
      rbind (float_of_int x) (fun fx => Ok (PyFloat (fx + y)%float))
  | PyFloat x, PyInt y =>
      rbind (float_of_int y) (fun fy => Ok (PyFloat (x + fy)%float))
  | PyFloat x, PyFloat y => Ok (PyFloat (x + y)%float)
  | PyStr x, PyStr y => Ok (PyStr (String.append x y))
  | _, _ => Raise TypeError
  end.

(** The binary64 value of a number, as a float column stores it
    ([0] and [0.0] are the same number). *)
Definition num_value (v : pyobj) : option float :=
  match v with
  | PyInt z =>
      match float_of_int z with
      | Ok f => Some f
      | Raise _ => None
      end
  | PyFloat f => Some f
  | _ => None
  end.

(** [float] applied to every element, stopping at the first exception. *)
Fixpoint float_all (str_to_float : string -> option float)
         (xs : list pyobj) : result (list float) :=
  match xs with
  | [] => Ok []
  | x :: xs' =>
      rbind (py_float str_to_float x) (fun f =>
      rbind (float_all str_to_float xs') (fun fs => Ok (f :: fs)))
  end.

(** Left-to-right sum of floats starting from zero. *)
Definition fsum (fs : list float) : float :=
  fold_left PrimFloat.add fs 0%float.

(** The totals before each element of [fs], starting from [e]. *)
Fixpoint running (e : float) (fs : list float) : list float :=
  match fs with
  | [] => []
  | x :: fs' => e :: running (e + x)%float fs'
  end.

(** The column the loop builds from the converted profits: the integer [0]
    it starts with, then floats. *)
Definition equity_column (fs : list float) : list pyobj :=
  match fs with
  | [] => []
  | x :: fs' => PyInt 0 :: map PyFloat (running (Z2float 0 + x)%float fs')
  end.

End Py.

(** ** Cell In[20]: the equity line *)

Module Notebook.
Import Py.

(** The global variables the cell assigns.  They survive between runs of
    the cell, and also when a run stops with an exception.  An element of
    [daily_profit] is a (date, profit) pair, read as [date_profit[0]] and
    [date_profit[1]]. *)
Record globals : Type := mkGlobals {
  dates : list pyobj;
  profits : list pyobj;
  equity : pyobj;
  equity_daily : list pyobj
}.

(** [pd.DataFrame({'dates': ..., 'equity_daily': ...})]: two columns. *)
Record DataFrame : Type := mkDataFrame {
  col_dates : list pyobj;
  col_equity_daily : list pyobj
}.

(** The constructor refuses columns of different lengths. *)
Definition pd_DataFrame (ds es : list pyobj) : result DataFrame :=
  if Nat.eqb (List.length ds) (List.length es)
  then Ok (mkDataFrame ds es)
  else Raise ValueError.

(** Rows of the frame: the equity points handed to the plot. *)
Definition rows (d : DataFrame) : list (pyobj * pyobj) :=
  combine (col_dates d) (col_equity_daily d).

(** *** Statements: state passing with exceptions *)

Definition M (A : Type) : Type := globals -> result A * globals.

Definition ret {A : Type} (a : A) : M A := fun g => (Ok a, g).

Definition bind {A B : Type} (m : M A) (k : A -> M B) : M B :=
  fun g =>
    match m g with
    | (Ok a, g') => k a g'
    | (Raise e, g') => (Raise e, g')
    end.

Definition lift {A : Type} (r : result A) : M A := fun g => (r, g).

Definition gets {A : Type} (f : globals -> A) : M A := fun g => (Ok (f g), g).

Definition modify (f : globals -> globals) : M unit := fun g => (Ok tt, f g).

Declare Scope stmt_scope.
Delimit Scope stmt_scope with stmt.
Notation "x <- m ;; k" := (bind m (fun x => k))
  (at level 61, m at next level, right associativity) : stmt_scope.
Notation "m ;; k" := (bind m (fun _ => k))
  (at level 61, right associativity) : stmt_scope.
Local Open Scope stmt_scope.

Definition set_dates (v : list pyobj) : M unit :=
  modify (fun g => mkGlobals v (profits g) (equity g) (equity_daily g)).
Definition set_profits (v : list pyobj) : M unit :=
  modify (fun g => mkGlobals (dates g) v (equity g) (equity_daily g)).
Definition set_equity (v : pyobj) : M unit :=
  modify (fun g => mkGlobals (dates g) (profits g) v (equity_daily g)).
Definition set_equity_daily (v : list pyobj) : M unit :=
  modify (fun g => mkGlobals (dates g) (profits g) (equity g) v).

(** [for x in xs: body]. *)
Fixpoint for_each {A : Type} (xs : list A) (body : A -> M unit) : M unit :=
  match xs with
  | [] => ret tt
  | x :: xs' => body x ;; for_each xs' body
  end.

Section Cell.

Variable str_to_float : string -> option float.

(** Lines 265-269:
<<
    dates = []
    profits = []
    for date_profit in strategy_stats['daily_profit']:
        dates.append(date_profit[0])
        profits.append(date_profit[1])
>> *)
Definition split_columns (daily_profit : list (pyobj * pyobj)) : M unit :=
  set_dates [] ;;
  set_profits [] ;;
  for_each daily_profit (fun date_profit =>
    ds <- gets dates ;;
    set_dates (ds ++ [fst date_profit]) ;;
    ps <- gets profits ;;
    set_profits (ps ++ [snd date_profit])).

(** Body of the loop of lines 273-275:
<<
        equity_daily.append(equity)
        equity += float(daily_profit)
>> *)
Definition equity_step (daily_profit : pyobj) : M unit :=
  e <- gets equity ;;
  ed <- gets equity_daily ;;
  set_equity_daily (ed ++ [e]) ;;
  e0 <- gets equity ;;
  x <- lift (py_float str_to_float daily_profit) ;;
  e1 <- lift (py_add e0 (PyFloat x)) ;;
  set_equity e1.

(** Lines 271-275:
<<
    equity = 0
    equity_daily = []
    for daily_profit in profits:
        ...
>> *)
Definition accumulate : M unit :=
  set_equity (PyInt 0) ;;
  set_equity_daily [] ;;
  ps <- gets profits ;;
  for_each ps equity_step.

(** Line 278:
<<
    df = pd.DataFrame({'dates': dates,'equity_daily': equity_daily})
>> *)
Definition make_frame : M DataFrame :=
  ds <- gets dates ;;
  ed <- gets equity_daily ;;
  lift (pd_DataFrame ds ed).

(** The cell, from the [daily_profit] list of the statistics to [df]. *)
Definition cell_In20 (daily_profit : list (pyobj * pyobj)) : M DataFrame :=
  split_columns daily_profit ;;
  accumulate ;;
  make_frame.

(** The equity points of one run of the cell started with globals [g]:
    what the specification calls EquityCurveBuilder. *)
Definition EquityCurveBuilder (g : globals)
           (daily_profit : list (pyobj * pyobj))
  : result (list (pyobj * pyobj)) :=
  rbind (fst (cell_In20 daily_profit g)) (fun d => Ok (rows d)).

End Cell.

(** The state in which the second loop starts, whatever came before. *)
Definition loop_entry (dp : list (pyobj * pyobj)) : globals :=
  mkGlobals (map fst dp) (map snd dp) (PyInt 0) [].

End Notebook.

(** ** Ordering of the dates of a daily-profit series

    The statistics carry each day as an ISO string (YYYY-MM-DD), for which the
    lexicographic order is the calendar order. *)

Module DateOrder.
Import Py.

Definition date_lt (a b : pyobj) : bool :=
  match a, b with
  | PyStr x, PyStr y =>
      match String.compare x y with
      | Lt => true
      | _ => false
      end
  | _, _ => false
  end.

(** Some adjacent pair has its later element dated before the earlier. *)
Fixpoint unordered (series : list (pyobj * pyobj)) : bool :=
  match series with
  | a :: ((b :: _) as rest) => date_lt (fst b) (fst a) || unordered rest
  | _ => false
  end.

End DateOrder.

(** ** Trade analytics the notebook delegates *)

Module Analytics.

(** Modelled from the spec: the Trade record of the data model (the notebook
    receives trades as a data frame from [load_backtest_data]). *)
Record Trade : Type := mkTrade {
  pair : string;
  open_time : Z;
  close_time : option Z;
  profit_ratio : float;
  profit_abs : float;
  exit_reason : string
}.

(** Modelled from the spec: the input-validation failure of the
    parallelism analysis, with the index of the offending record. *)
Inductive error : Type :=
| InvalidIntervalError (index : nat).

(** Modelled from the spec: a call either computes its whole result or
    fails before producing any output. *)
Inductive checked (A : Type) : Type :=
| Computed (a : A)
| Rejected (e : error).
Arguments Computed {A} a.
Arguments Rejected {A} e.

(** *** ParallelismAnalyzer *)

(** Modelled from the spec: the invariant [close_time >= open_time] of a
    trade that has a close time. *)
Definition valid_interval (tr : Trade) : bool :=
  match close_time tr with
  | Some c => (open_time tr <=? c)%Z
  | None => true
  end.

(** Modelled from the spec: validation before any accumulation; the first
    record whose close time precedes its open time, counted from [i]. *)
Fixpoint first_invalid (i : nat) (trades : list Trade) : option nat :=
  match trades with
  | [] => None
  | tr :: rest =>
      if valid_interval tr then first_invalid (S i) rest else Some i
  end.

(** Modelled from the spec: the containment rule, left-closed and
    right-open, a trade without close time staying open. *)
Definition open_at (t : Z) (tr : Trade) : bool :=
  (open_time tr <=? t)%Z &&
  match close_time tr with
  | Some c => (t <? c)%Z
  | None => true
  end.

(** Modelled from the spec: the naive count of the trades open at [t]. *)
Definition open_count (t : Z) (trades : list Trade) : Z :=
  Z.of_nat (List.length (filter (open_at t) trades)).

(** Modelled from the spec: every timestamp observed in the input. *)
Definition observed (trades : list Trade) : list Z :=
  flat_map (fun tr =>
              open_time tr ::
              match close_time tr with
              | Some c => [c]
              | None => []
              end) trades.

(** Latest and earliest of a timestamp and a list of timestamps. *)
Definition maximum (x : Z) (xs : list Z) : Z := fold_left Z.max xs x.
Definition minimum (x : Z) (xs : list Z) : Z := fold_left Z.min xs x.

(** Modelled from the spec: where a trade ends for the grid, its close time
    or, when it is still open, the latest timestamp of the whole input. *)
Definition trade_end (latest : Z) (tr : Trade) : Z :=
  match close_time tr with
  | Some c => c
  | None => latest
  end.

(** Modelled from the spec: [n] grid timestamps from [t], one per period. *)
Fixpoint grid_points (t period : Z) (n : nat) : list Z :=
  match n with
  | O => []
  | S n' => t :: grid_points (t + period) period n'
  end.

(** Modelled from the spec: the grid from the earliest open time to the
    latest end, inclusive, stepped by the period; empty without trades. *)
Definition grid (trades : list Trade) (period : positive) : list Z :=
  match trades with
  | [] => []
  | tr :: rest =>
      let start := minimum (open_time tr) (map open_time rest) in
      let latest := maximum (open_time tr) (observed trades) in
      let stop := maximum (trade_end latest tr) (map (trade_end latest) rest) in
      grid_points start (Z.pos period)
                  (Z.to_nat ((stop - start) / Z.pos period + 1))
  end.

(** Modelled from the spec: the sweep-line events, [+1] where a trade
    opens and [-1] where it closes (none for a trade still open). *)
Definition events (trades : list Trade) : list (Z * Z) :=
  flat_map (fun tr =>
              (open_time tr, 1%Z) ::
              match close_time tr with
              | Some c => [(c, (-1)%Z)]
              | None => []
              end) trades.

(** Modelled from the spec: events sorted by timestamp (insertion into a
    sorted list, then insertion sort). *)
Fixpoint insert_event (e : Z * Z) (es : list (Z * Z)) : list (Z * Z) :=
  match es with
  | [] => [e]
  | e' :: es' =>
      if (fst e <=? fst e')%Z then e :: es else e' :: insert_event e es'
  end.

(** Modelled from the spec: all events in timestamp order. *)
Definition sort_events (es : list (Z * Z)) : list (Z * Z) :=
  fold_right insert_event [] es.

(** Modelled from the spec: the events whose timestamp has been reached at
    [t] are applied to the running counter. *)
Fixpoint apply_due (t : Z) (count : Z) (es : list (Z * Z))
  : Z * list (Z * Z) :=
  match es with
  | [] => (count, [])
  | e :: es' =>
      if (fst e <=? t)%Z then apply_due t (count + snd e)%Z es'
      else (count, es)
  end.

(** Modelled from the spec: the walk along the grid, reading the counter at
    each grid point after the due events. *)
Fixpoint sweep (points : list Z) (count : Z) (es : list (Z * Z))
  : list (Z * Z) :=
  match points with
  | [] => []
  | t :: points' =>
      let (count', es') := apply_due t count es in
      (t, count') :: sweep points' count' es'
  end.

(** Modelled from the spec: the parallelism analysis, for the body of
    [analyze_trade_parallelism] that the notebook imports from
    [freqtrade.data.btanalysis] and calls at line 312; it validates every
    interval, then sweeps the grid. *)
Definition ParallelismAnalyzer (trades : list Trade) (period : positive)
  : checked (list (Z * Z)) :=
  match first_invalid 0 trades with
  | Some i => Rejected (InvalidIntervalError i)
  | None =>
      Computed (sweep (grid trades period) 0%Z (sort_events (events trades)))
  end.

(** *** GroupedTradeSummary *)

(** Modelled from the spec: one more record under key [k] in a summary kept
    in lexicographic key order. *)
Fixpoint count_key (k : string) (summary : list (string * nat))
  : list (string * nat) :=
  match summary with
  | [] => [(k, 1)]
  | (k', n) :: rest =>
      match String.compare k k' with
      | Lt => (k, 1) :: summary
      | Eq => (k', S n) :: rest
      | Gt => (k', n) :: count_key k rest
      end
  end.

(** Modelled from the spec: the group-by count of a trade set under a
    categorical key ([pair], [exit_reason]), keys in lexicographic order, for
    the pandas [groupby] / [value_counts] the notebook calls at lines 243
    and 297. *)
Definition GroupedTradeSummary (key : Trade -> string) (trades : list Trade)
  : list (string * nat) :=
  fold_left (fun summary tr => count_key (key tr) summary) trades [].

(** *** Vocabulary of the sweep-line argument *)

(** Events ordered by timestamp. *)
Definition by_time (a b : Z * Z) : Prop := (fst a <= fst b)%Z.

(** The events whose timestamp has been reached at [t], and the others. *)
Definition due (t : Z) (es : list (Z * Z)) : list (Z * Z) :=
  filter (fun e => (fst e <=? t)%Z) es.

Definition pending (t : Z) (es : list (Z * Z)) : list (Z * Z) :=
  filter (fun e => negb (fst e <=? t)%Z) es.

(** Net effect of a list of events on the counter. *)
Fixpoint total (es : list (Z * Z)) : Z :=
  match es with
  | [] => 0%Z
  | e :: es' => (snd e + total es')%Z
  end.

(** Keys of a summary in strictly ascending lexicographic order. *)
Definition key_lt (a b : string) : Prop := String.compare a b = Lt.

Definition ascending_keys (summary : list (string * nat)) : Prop :=
  Sorted key_lt (map fst summary).

End Analytics.

(** ** Closing total of the equity loop *)

Module Closing.
Import Py.

(** The value of the global [equity] once the loop of lines 273-275 has
    added the converted profits [fs]: the integer [0] it was assigned when
    nothing was added, a float afterwards. *)
Definition closing_equity (fs : list float) : pyobj :=
  match fs with
  | [] => PyInt 0
  | x :: fs' => PyFloat (fold_left PrimFloat.add fs' (Z2float 0 + x)%float)
  end.

End Closing.

(** ** Cell In[5]: the search for the project root (lines 32-48) *)

Module ProjectRoot.

(** An absolute directory, as the list of its components below the file
    system root (the root itself is the empty list). *)
Definition path : Type := list string.

Inductive exn : Type :=
| AttributeError
| OSError.

(** [project_root] is first a string, then the [Path] of [Path.cwd()]. *)
Inductive root_value : Type :=
| RootStr (s : string)
| RootPath (p : path).

(** The working directory of the process and the two globals of the cell. *)
Record state : Type := mkState {
  cwd : path;
  i : Z;
  project_root : root_value
}.

(** A statement finishes, or raises and leaves the state as it was then. *)
Inductive outcome : Type :=
| Done (s : state)
| Raised (e : exn) (s : state).

(** [Path(p, '../')] as [os.chdir] resolves it: the parent directory, the
    root being its own parent. *)
Definition parent (p : path) : path := removelast p.

(** The directory [k] levels above [p]. *)
Fixpoint ancestor (k : nat) (p : path) : path :=
  match k with
  | O => p
  | S k' => ancestor k' (parent p)
  end.

Section FileSystem.

(** The file system is fixed while the cell runs and the working directory
    exists, so that [Path.cwd()] returns it.

    [Path('LICENSE').is_file()] when the working directory is [p]. *)
Variable has_license : path -> bool.

(** Whether [os.chdir] into [p] succeeds (it raises [OSError] otherwise). *)
Variable can_enter : path -> bool.

(** [os.chdir(target)]. *)
Definition chdir (target : path) (s : state) : outcome :=
  if can_enter target
  then Done (mkState target (i s) (project_root s))
  else Raised OSError s.

(** Lines 41-42:
<<
    os.chdirdir(project_root)
    assert Path('LICENSE').is_file()
>>
    The module [os] has no attribute [chdirdir]: the lookup raises
    [AttributeError] before anything is called, and the assertion is never
    reached. *)
Definition try_body (s : state) : outcome := Raised AttributeError s.

(** Lines 44-46:
<<
    while i<4 and (not Path('LICENSE').is_file()):
        os.chdir(Path(Path.cwd(), '../'))
        i+=1
>>
    [None] when [fuel] turns of the loop were not enough. *)
Fixpoint while_loop (fuel : nat) (s : state) : option outcome :=
  match fuel with
  | O => None
  | S fuel' =>
      if (i s <? 4)%Z && negb (has_license (cwd s)) then
        match chdir (parent (cwd s)) s with
        | Done s' =>
            while_loop fuel' (mkState (cwd s') (i s' + 1)%Z (project_root s'))
        | Raised e s' => Some (Raised e s')
        end
      else Some (Done s)
  end.

(** Lines 38-47:
<<
    project_root = "somedir/freqtrade"
    i=0
    try:
        ...
    except:
        while ...
        project_root = Path.cwd()
>> *)
Definition cell_In5 (fuel : nat) (s0 : state) : option outcome :=
  let s1 := mkState (cwd s0) (i s0) (RootStr "somedir/freqtrade") in
  let s2 := mkState (cwd s1) 0%Z (project_root s1) in
  match try_body s2 with
  | Done s3 => Some (Done s3)
  | Raised _ s3 =>
      match while_loop fuel s3 with
      | Some (Done s4) =>
          Some (Done (mkState (cwd s4) (i s4) (RootPath (cwd s4))))
      | other => other
      end
  end.

End FileSystem.

End ProjectRoot.

(** ** Concrete inputs used in the examples *)

Module Examples.
Import Py Notebook Analytics.

(** A parser that knows the literals of a table and rejects the rest. *)
Fixpoint table_parser (table : list (string * float)) (s : string)
  : option float :=
  match table with
  | [] => None
  | (lit, f) :: table' =>
      if String.eqb lit s then Some f else table_parser table' s
  end.

Definition literals : list (string * float) :=
  [("10"%string, 10%float); ("-5"%string, (-5)%float);
   ("20"%string, 20%float)].

(** Globals left behind by some earlier run. *)
Definition stale : globals :=
  mkGlobals [PyStr "2020-12-31"] [PyFloat 7] (PyFloat 7) [PyInt 0].

Definition three_days : list (pyobj * pyobj) :=
  [(PyStr "2021-01-01", PyFloat 10);
   (PyStr "2021-01-02", PyFloat (-5));
   (PyStr "2021-01-04", PyFloat 20)].

Definition descending : list (pyobj * pyobj) :=
  [(PyStr "2021-01-02", PyFloat 10);
   (PyStr "2021-01-01", PyFloat (-5))].

(** Two overlapping trades on a five-minute grid (times in minutes), a
    trade that is still open, and a record whose interval is inverted. *)
Definition trade_A : Trade :=
  mkTrade "BTC/USDT" 0 (Some 10%Z) 0.5 1 "roi".
Definition trade_B : Trade :=
  mkTrade "ETH/USDT" 5 (Some 15%Z) (-0.25) (-2) "stop_loss".
Definition trade_open : Trade :=
  mkTrade "BTC/USDT" 5 None 0 0 "".
Definition trade_inverted : Trade :=
  mkTrade "ETH/USDT" 10 (Some 5%Z) 0 0 "roi".

(** A checkout of the framework with the notebook two levels below it. *)
Definition checkout : ProjectRoot.path :=
  ["home"; "trader"; "freqtrade"]%string.

Definition notebook_dir : ProjectRoot.path :=
  ["home"; "trader"; "freqtrade"; "user_data"; "notebooks"]%string.

Definition license_in_checkout (p : ProjectRoot.path) : bool :=
  if list_eq_dec string_dec p checkout then true else false.

Definition anywhere (p : ProjectRoot.path) : bool := true.

Definition no_license (p : ProjectRoot.path) : bool := false.


Definition fresh_kernel : ProjectRoot.state :=
  ProjectRoot.mkState notebook_dir 0 (ProjectRoot.RootStr "").

End Examples.

(** * Properties of cell In[20] *)

Module NotebookFacts.
Import Py Notebook DateOrder.
Local Open Scope stmt_scope.

Lemma float_all_length stf ps fs :
  float_all stf ps = Ok fs -> List.length fs = List.length ps.
Proof.
  revert fs; induction ps as [|p ps IH]; simpl; intros fs H.
  - inversion H; reflexivity.
  - destruct (py_float stf p) as [x|e]; simpl in H; [|discriminate].
    destruct (float_all stf ps) as [fs'|e]; simpl in H; [|discriminate].
    inversion H; subst; simpl; f_equal; auto.
Qed.

Lemma running_length e fs : List.length (running e fs) = List.length fs.
Proof. revert e; induction fs; simpl; intros; auto. Qed.

Lemma equity_column_length fs :
  List.length (equity_column fs) = List.length fs.
Proof.
  destruct fs; simpl; auto.
  now rewrite length_map, running_length.
Qed.

Lemma running_nth e fs i v :
  nth_error (running e fs) i = Some v ->
  v = fold_left PrimFloat.add (firstn i fs) e.
Proof.
  revert e i; induction fs as [|x fs IH]; intros e i H.
  - destruct i; discriminate.
  - destruct i; simpl in *.
    + now inversion H.
    + now apply IH.
Qed.

(** The first loop only appends to [dates] and [profits]. *)
Lemma split_loop_run (dp : list (pyobj * pyobj)) g :
  for_each dp (fun date_profit =>
      ds <- gets dates ;;
      set_dates (ds ++ [fst date_profit]) ;;
      ps <- gets profits ;;
      set_profits (ps ++ [snd date_profit])) g
  = (Ok tt, mkGlobals (dates g ++ map fst dp) (profits g ++ map snd dp)
                      (equity g) (equity_daily g)).
Proof.
  revert g; induction dp as [|[d p] dp IH]; intros g.
  - simpl. unfold ret. rewrite !app_nil_r. now destruct g.
  - cbn [for_each]. unfold bind at 1. cbn.
    rewrite IH. cbn. now rewrite <- !app_assoc.
Qed.

Lemma split_columns_run dp g :
  split_columns dp g
  = (Ok tt, mkGlobals (map fst dp) (map snd dp) (equity g) (equity_daily g)).
Proof.
  unfold split_columns. unfold bind at 1. cbn.
  unfold bind at 1. cbn. now rewrite split_loop_run.
Qed.

(** A run of the cell forgets the globals it started from. *)
Lemma cell_reset stf dp g :
  cell_In20 stf dp g
  = (for_each (map snd dp) (equity_step stf) ;; make_frame) (loop_entry dp).
Proof.
  unfold cell_In20. unfold bind at 1. rewrite split_columns_run.
  unfold accumulate. reflexivity.
Qed.

(** One turn of the second loop. *)
Lemma equity_step_run stf p g :
  equity_step stf p g
  = let g1 := mkGlobals (dates g) (profits g) (equity g)
                        (equity_daily g ++ [equity g]) in
    match py_float stf p with
    | Ok x =>
        match py_add (equity g) (PyFloat x) with
        | Ok e1 =>
            (Ok tt, mkGlobals (dates g) (profits g) e1
                              (equity_daily g ++ [equity g]))
        | Raise ex => (Raise ex, g1)
        end
    | Raise ex => (Raise ex, g1)
    end.
Proof.
  unfold equity_step, bind, gets, lift, set_equity, set_equity_daily, modify.
  cbn. destruct (py_float stf p) as [x|ex]; [|reflexivity].
  now destruct (py_add (equity g) (PyFloat x)).
Qed.

(** The second loop from a float total. *)
Lemma equity_loop_float stf ps : forall g e,
  equity g = PyFloat e ->
  match float_all stf ps with
  | Ok fs =>
      for_each ps (equity_step stf) g
      = (Ok tt, mkGlobals (dates g) (profits g)
                          (PyFloat (fold_left PrimFloat.add fs e))
                          (equity_daily g ++ map PyFloat (running e fs)))
  | Raise ex => fst (for_each ps (equity_step stf) g) = Raise ex
  end.
Proof.
  induction ps as [|p ps IH]; intros g e He.
  - simpl. unfold ret. rewrite app_nil_r. rewrite <- He. now destruct g.
  - cbn [float_all for_each]. unfold bind. rewrite equity_step_run.
    destruct (py_float stf p) as [x|ex]; cbn; [|reflexivity].
    rewrite He. cbn.
    specialize (IH (mkGlobals (dates g) (profits g) (PyFloat (e + x))
                              (equity_daily g ++ [PyFloat e]))
                   (e + x)%float eq_refl).
    destruct (float_all stf ps) as [fs|ex]; cbn in *.
    + rewrite IH. now rewrite <- app_assoc.
    + exact IH.
Qed.

(** The second loop from the integer [0] the cell starts with. *)
Lemma equity_loop_run stf ps : forall g,
  equity g = PyInt 0 ->
  match float_all stf ps with
  | Ok fs =>
      exists e',
      for_each ps (equity_step stf) g
      = (Ok tt, mkGlobals (dates g) (profits g) e'
                          (equity_daily g ++ equity_column fs))
  | Raise ex => fst (for_each ps (equity_step stf) g) = Raise ex
  end.
Proof.
  intros g He. destruct ps as [|p ps].
  - simpl. exists (PyInt 0). unfold ret. rewrite app_nil_r, <- He.
    now destruct g.
  - cbn [float_all for_each]. unfold bind. rewrite equity_step_run.
    destruct (py_float stf p) as [x|ex]; cbn; [|reflexivity].
    rewrite He.
    change (py_add (PyInt 0) (PyFloat x))
      with (Ok (PyFloat (Z2float 0 + x))).
    pose proof (equity_loop_float stf ps
      (mkGlobals (dates g) (profits g) (PyFloat (Z2float 0 + x))
                 (equity_daily g ++ [PyInt 0]))
      (Z2float 0 + x)%float eq_refl) as IH.
    destruct (float_all stf ps) as [fs|ex]; cbn in *.
    + rewrite IH. eexists. now rewrite <- app_assoc.
    + exact IH.
Qed.

(** What a run of the cell returns. *)
Lemma cell_In20_result stf dp g :
  fst (cell_In20 stf dp g)
  = rbind (float_all stf (map snd dp))
          (fun fs => Ok (mkDataFrame (map fst dp) (equity_column fs))).
Proof.
  rewrite cell_reset.
  pose proof (equity_loop_run stf (map snd dp) (loop_entry dp) eq_refl) as H.
  unfold bind at 1.
  destruct (float_all stf (map snd dp)) as [fs|ex] eqn:Hfs.
  - destruct H as [e' H]. rewrite H. cbn.
    unfold pd_DataFrame.
    rewrite equity_column_length, (float_all_length _ _ _ Hfs), !length_map.
    now rewrite Nat.eqb_refl.
  - destruct (for_each (map snd dp) (equity_step stf) (loop_entry dp))
      as [[u|ex'] g']; cbn in *; congruence.
Qed.

Lemma EquityCurveBuilder_result stf g dp :
  EquityCurveBuilder stf g dp
  = rbind (float_all stf (map snd dp))
          (fun fs => Ok (combine (map fst dp) (equity_column fs))).
Proof.
  unfold EquityCurveBuilder. rewrite cell_In20_result.
  now destruct (float_all stf (map snd dp)).
Qed.

Lemma map_fst_combine {A B : Type} (l : list A) (l' : list B) :
  List.length l = List.length l' -> map fst (combine l l') = l.
Proof.
  revert l'; induction l as [|a l IH]; destruct l'; simpl; intros H;
    try discriminate; auto.
  f_equal. apply IH. now inversion H.
Qed.

Lemma map_snd_combine {A B : Type} (l : list A) (l' : list B) :
  List.length l = List.length l' -> map snd (combine l l') = l'.
Proof.
  revert l'; induction l as [|a l IH]; destruct l'; simpl; intros H;
    try discriminate; auto.
  f_equal. apply IH. now inversion H.
Qed.

(** A run that returns has converted every profit. *)
Lemma EquityCurveBuilder_Ok stf g dp out :
  EquityCurveBuilder stf g dp = Ok out ->
  exists fs, float_all stf (map snd dp) = Ok fs /\
             List.length fs = List.length dp /\
             out = combine (map fst dp) (equity_column fs).
Proof.
  rewrite EquityCurveBuilder_result.
  destruct (float_all stf (map snd dp)) as [fs|ex] eqn:Hfs; cbn; intros H.
  - exists fs. apply float_all_length in Hfs. rewrite length_map in Hfs.
    inversion H; auto.
  - discriminate.
Qed.

Lemma equity_column_sum fs i v :
  nth_error (equity_column fs) i = Some v ->
  num_value v = Some (fsum (firstn i fs)).
Proof.
  destruct fs as [|x fs]; [destruct i; discriminate|].
  destruct i as [|i]; cbn [equity_column nth_error]; intros H.
  - inversion H; subst. reflexivity.
  - rewrite nth_error_map in H.
    destruct (nth_error (running (Z2float 0 + x) fs) i) as [w|] eqn:Hw;
      [|discriminate].
    inversion H; subst. apply running_nth in Hw. subst w. reflexivity.
Qed.

Lemma float_all_nth stf ps fs i p :
  float_all stf ps = Ok fs -> nth_error ps i = Some p ->
  exists x, nth_error fs i = Some x /\ py_float stf p = Ok x.
Proof.
  revert fs i; induction ps as [|q ps IH]; intros fs i H Hp.
  - destruct i; discriminate.
  - cbn in H. destruct (py_float stf q) as [y|] eqn:Hq; [|discriminate].
    destruct (float_all stf ps) as [fs'|]; [|discriminate].
    cbn in H; inversion H; subst.
    destruct i; cbn in *.
    + inversion Hp; subst. eauto.
    + eapply IH; eauto.
Qed.

Lemma running_step e fs i a b x :
  nth_error (running e fs) i = Some a ->
  nth_error (running e fs) (S i) = Some b ->
  nth_error fs i = Some x ->
  b = (a + x)%float.
Proof.
  revert e i; induction fs as [|y fs IH]; intros e i Ha Hb Hx.
  - destruct i; discriminate.
  - destruct i as [|i].
    + cbn in Ha, Hx. inversion Ha; inversion Hx; subst.
      destruct fs; cbn in Hb; [discriminate|now inversion Hb].
    + cbn in Ha, Hx. change (nth_error (running e (y :: fs)) (S (S i)))
        with (nth_error (running (e + y) fs) (S i)) in Hb.
      eapply IH; eauto.
Qed.

(** C1: at every index the equity value is the sum of the profits of the
    strictly prior days (zero on the first day), provided [float] accepts
    the profits; daily profits 10, -5, 20 give equity 0, 10, 5. *)
Theorem equity_is_sum_of_prior_days stf g :
  (forall dp fs,
      float_all stf (map snd dp) = Ok fs ->
      exists out,
        EquityCurveBuilder stf g dp = Ok out /\
        List.length out = List.length dp /\
        forall i v, nth_error (map snd out) i = Some v ->
                    num_value v = Some (fsum (firstn i fs))) /\
  (forall d1 d2 d3,
      EquityCurveBuilder stf g
        [(d1, PyFloat 10); (d2, PyFloat (-5)); (d3, PyFloat 20)]
      = Ok [(d1, PyInt 0); (d2, PyFloat 10); (d3, PyFloat 5)]).
Proof.
  split.
  - intros dp fs Hfs. rewrite EquityCurveBuilder_result, Hfs. cbn [rbind].
    pose proof (float_all_length _ _ _ Hfs) as Hlen.
    rewrite length_map in Hlen.
    assert (Hc : List.length (map fst dp) = List.length (equity_column fs))
      by now rewrite equity_column_length, length_map.
    eexists; split; [reflexivity|]. split.
    + rewrite length_combine, <- Hc, length_map. apply Nat.min_id.
    + intros i v. rewrite (map_snd_combine _ _ Hc).
      apply equity_column_sum.
  - intros d1 d2 d3. rewrite EquityCurveBuilder_result. reflexivity.
Qed.

Lemma equity_is_sum_of_prior_days_witness :
  exists out,
    EquityCurveBuilder (Examples.table_parser []) Examples.stale
                       Examples.three_days = Ok out /\
    List.length out = 3 /\
    forall i v, nth_error (map snd out) i = Some v ->
                num_value v
                = Some (fsum (firstn i [10; -5; 20]%float)).
Proof.
  exact (proj1 (equity_is_sum_of_prior_days (Examples.table_parser [])
                                            Examples.stale)
               Examples.three_days [10; -5; 20]%float eq_refl).
Defined.

(** C3, as the code has it: the cell never compares dates; a series that
    is not ascending by date is processed like any other, its dates kept in
    input order and its values the totals of the prior profits. *)
Theorem unordered_series_processed stf g dp fs :
  unordered dp = true ->
  float_all stf (map snd dp) = Ok fs ->
  exists out,
    EquityCurveBuilder stf g dp = Ok out /\
    map fst out = map fst dp /\
    map snd out = equity_column fs.
Proof.
  intros _ Hfs. rewrite EquityCurveBuilder_result, Hfs. cbn [rbind].
  pose proof (float_all_length _ _ _ Hfs) as Hlen.
  rewrite length_map in Hlen.
  assert (Hc : List.length (map fst dp) = List.length (equity_column fs))
    by now rewrite equity_column_length, length_map.
  eexists; split; [reflexivity|].
  now rewrite (map_fst_combine _ _ Hc), (map_snd_combine _ _ Hc).
Qed.

Lemma unordered_series_processed_witness :
  exists out,
    EquityCurveBuilder (Examples.table_parser []) Examples.stale
                       Examples.descending = Ok out /\
    map fst out = [PyStr "2021-01-02"; PyStr "2021-01-01"] /\
    map snd out = [PyInt 0; PyFloat 10].
Proof.
  exact (unordered_series_processed (Examples.table_parser [])
           Examples.stale Examples.descending [10; -5]%float
           eq_refl eq_refl).
Defined.

(** C3 as stated fails: the descending series is not rejected, the cell
    returns an equity series for it. *)
Lemma descending_series_accepted :
  unordered Examples.descending = true /\
  EquityCurveBuilder (Examples.table_parser []) Examples.stale
                     Examples.descending
  = Ok [(PyStr "2021-01-02", PyInt 0); (PyStr "2021-01-01", PyFloat 10)].
Proof. split; reflexivity. Qed.

(** C5: an empty input gives an empty output and no exception; a single
    day gives its date with equity 0. *)
Theorem empty_and_single_day stf g :
  EquityCurveBuilder stf g [] = Ok [] /\
  (forall d p x, py_float stf p = Ok x ->
                 EquityCurveBuilder stf g [(d, p)] = Ok [(d, PyInt 0)]).
Proof.
  split.
  - now rewrite EquityCurveBuilder_result.
  - intros d p x Hp. rewrite EquityCurveBuilder_result. cbn.
    now rewrite Hp.
Qed.

Lemma empty_and_single_day_witness :
  EquityCurveBuilder (Examples.table_parser []) Examples.stale
                     [(PyStr "2021-01-01", PyFloat 10)]
  = Ok [(PyStr "2021-01-01", PyInt 0)].
Proof.
  exact (proj2 (empty_and_single_day (Examples.table_parser [])
                                     Examples.stale)
               (PyStr "2021-01-01") (PyFloat 10) 10%float eq_refl).
Defined.

(** C6: a run of the cell does not depend on the globals left by earlier
    runs, so running it again on the same input gives the same outcome
    (and leaves the same globals). *)
Theorem recomputation_is_identical stf dp :
  (forall g g', cell_In20 stf dp g = cell_In20 stf dp g') /\
  (forall g g', EquityCurveBuilder stf g dp = EquityCurveBuilder stf g' dp) /\
  (forall g, cell_In20 stf dp (snd (cell_In20 stf dp g))
             = cell_In20 stf dp g).
Proof.
  assert (H : forall g g', cell_In20 stf dp g = cell_In20 stf dp g')
    by (intros g g'; now rewrite !cell_reset).
  split; [exact H|]. split.
  - intros g g'. unfold EquityCurveBuilder. now rewrite (H g g').
  - intros g. apply H.
Qed.

(** C9: the output has one row per input row, with the dates of the input
    in the order of the input; nothing is skipped or inserted. *)
Theorem dates_follow_input stf g dp out :
  EquityCurveBuilder stf g dp = Ok out ->
  List.length out = List.length dp /\ map fst out = map fst dp.
Proof.
  intros H. apply EquityCurveBuilder_Ok in H.
  destruct H as (fs & _ & Hlen & ->).
  assert (Hc : List.length (map fst dp) = List.length (equity_column fs))
    by now rewrite equity_column_length, length_map.
  split.
  - rewrite length_combine, <- Hc, length_map. apply Nat.min_id.
  - apply (map_fst_combine _ _ Hc).
Qed.

Lemma dates_follow_input_witness :
  List.length [(PyStr "2021-01-01", PyInt 0);
               (PyStr "2021-01-02", PyFloat 10);
               (PyStr "2021-01-04", PyFloat 5)] = 3 /\
  map fst [(PyStr "2021-01-01", PyInt 0);
           (PyStr "2021-01-02", PyFloat 10);
           (PyStr "2021-01-04", PyFloat 5)]
  = [PyStr "2021-01-01"; PyStr "2021-01-02"; PyStr "2021-01-04"].
Proof.
  exact (dates_follow_input (Examples.table_parser []) Examples.stale
                            Examples.three_days _ eq_refl).
Defined.

Lemma float_all_strings stf ss fs :
  Forall2 (fun s f => stf s = Some f) ss fs ->
  float_all stf (map PyStr ss) = Ok fs /\
  float_all stf (map PyFloat fs) = Ok fs.
Proof.
  induction 1 as [|s f ss fs Hs _ [IH1 IH2]]; cbn; auto.
  now rewrite Hs, IH1, IH2.
Qed.

(** C10: profits given as numeric strings are accepted and give the output
    of the numbers they denote; each value is the previous one plus
    [float] of the profit of that day, in input order; the output depends on
    the profits only through [float]. *)
Theorem float_coercion_of_profits stf g :
  (forall ds ss fs,
      List.length ds = List.length ss ->
      Forall2 (fun s f => stf s = Some f) ss fs ->
      exists out,
        EquityCurveBuilder stf g (combine ds (map PyStr ss)) = Ok out /\
        EquityCurveBuilder stf g (combine ds (map PyFloat fs)) = Ok out) /\
  (forall dp out i p v v',
      EquityCurveBuilder stf g dp = Ok out ->
      nth_error (map snd dp) i = Some p ->
      nth_error (map snd out) i = Some v ->
      nth_error (map snd out) (S i) = Some v' ->
      exists x, py_float stf p = Ok x /\ py_add v (PyFloat x) = Ok v') /\
  (forall dp dp',
      map fst dp = map fst dp' ->
      float_all stf (map snd dp) = float_all stf (map snd dp') ->
      EquityCurveBuilder stf g dp = EquityCurveBuilder stf g dp').
Proof.
  split; [|split].
  3: { intros dp dp' Hd Hf. rewrite !EquityCurveBuilder_result.
       now rewrite Hd, Hf. }
  - intros ds ss fs Hlen Hall.
    pose proof (Forall2_length Hall) as Hlen'.
    destruct (float_all_strings stf _ _ Hall) as [H1 H2].
    rewrite !EquityCurveBuilder_result.
    rewrite !map_snd_combine, !map_fst_combine
      by (rewrite length_map; congruence).
    rewrite H1, H2. cbn. eauto.
  - intros dp out i p v v' Hout Hp Hv Hv'.
    apply EquityCurveBuilder_Ok in Hout.
    destruct Hout as (fs & Hfs & Hlen & ->).
    assert (Hc : List.length (map fst dp) = List.length (equity_column fs))
      by now rewrite equity_column_length, length_map.
    rewrite (map_snd_combine _ _ Hc) in Hv, Hv'.
    destruct (float_all_nth _ _ _ _ _ Hfs Hp) as (x & Hx & Hpx).
    exists x; split; [exact Hpx|].
    destruct fs as [|x0 fs]; [destruct i; discriminate|].
    cbn [equity_column] in Hv, Hv'.
    destruct i as [|i].
    + cbn in Hv, Hx. inversion Hv; inversion Hx; subst.
      destruct fs; cbn in Hv'; [discriminate|].
      inversion Hv'; subst. reflexivity.
    + assert (Hw : nth_error (map PyFloat (running (Z2float 0 + x0) fs)) i
                   = Some v) by exact Hv.
      assert (Hw' : nth_error (map PyFloat (running (Z2float 0 + x0) fs))
                              (S i) = Some v') by exact Hv'.
      clear Hv Hv'. rename Hw into Hv, Hw' into Hv'.
      assert (Hx' : nth_error fs i = Some x) by exact Hx.
      clear Hx. rename Hx' into Hx.
      rewrite nth_error_map in Hv, Hv'.
      destruct (nth_error (running (Z2float 0 + x0) fs) i) as [a|] eqn:Ha;
        [|discriminate].
      destruct (nth_error (running (Z2float 0 + x0) fs) (S i)) as [b|] eqn:Hb;
        [|discriminate].
      cbn in Hv, Hv'. inversion Hv; inversion Hv'; subst.
      now rewrite (running_step _ _ _ _ _ _ Ha Hb Hx).
Qed.

Lemma float_coercion_of_profits_witness :
  exists out,
    EquityCurveBuilder (Examples.table_parser Examples.literals)
      Examples.stale
      (combine [PyStr "2021-01-01"; PyStr "2021-01-02"; PyStr "2021-01-04"]
               (map PyStr ["10"; "-5"; "20"]%string)) = Ok out /\
    EquityCurveBuilder (Examples.table_parser Examples.literals)
      Examples.stale
      (combine [PyStr "2021-01-01"; PyStr "2021-01-02"; PyStr "2021-01-04"]
               (map PyFloat [10; -5; 20]%float)) = Ok out.
Proof.
  apply (proj1 (float_coercion_of_profits
                  (Examples.table_parser Examples.literals) Examples.stale)).
  - reflexivity.
  - repeat constructor.
Defined.

End NotebookFacts.

(** * Properties of the delegated analytics *)

Module ParallelismFacts.
Import Analytics.
Local Open Scope Z_scope.

Lemma total_app a b : total (a ++ b) = total a + total b.
Proof. induction a as [|e a IH]; cbn; [reflexivity|]. rewrite IH. lia. Qed.

(** **** Sorting the events *)

Lemma insert_event_Forall (P : Z * Z -> Prop) e es :
  P e -> Forall P es -> Forall P (insert_event e es).
Proof.
  intros He; induction 1 as [|a es Ha Hes IH]; cbn.
  - auto.
  - destruct (fst e <=? fst a); auto.
Qed.

Lemma insert_event_sorted e es :
  StronglySorted by_time es -> StronglySorted by_time (insert_event e es).
Proof.
  induction 1 as [|a es Hs IH Ha]; cbn.
  - repeat constructor.
  - destruct (Z.leb_spec (fst e) (fst a)) as [Hle|Hgt].
    + constructor; [constructor; assumption|].
      constructor; [exact Hle|].
      eapply Forall_impl; [|exact Ha]. unfold by_time. intros; lia.
    + constructor; [exact IH|].
      apply insert_event_Forall; [unfold by_time; lia|exact Ha].
Qed.

Lemma sort_events_sorted es : StronglySorted by_time (sort_events es).
Proof.
  induction es as [|e es IH]; cbn; [constructor|].
  now apply insert_event_sorted.
Qed.

Lemma due_insert_event t e es :
  total (due t (insert_event e es)) = total (due t [e]) + total (due t es).
Proof.
  induction es as [|a es IH].
  - cbn. destruct (fst e <=? t); cbn; lia.
  - cbn [insert_event]. destruct (fst e <=? fst a).
    + change (e :: a :: es) with ([e] ++ a :: es).
      unfold due. rewrite filter_app. apply total_app.
    + unfold due in *. cbn [filter] in *.
      destruct (fst a <=? t), (fst e <=? t); cbn [total] in *; lia.
Qed.

Lemma due_sort_events t es : total (due t (sort_events es)) = total (due t es).
Proof.
  induction es as [|e es IH]; [reflexivity|].
  cbn [sort_events fold_right]. fold (sort_events es).
  rewrite due_insert_event, IH.
  unfold due. cbn [filter]. destruct (fst e <=? t); cbn; lia.
Qed.

(** **** Walking the grid *)

Lemma nothing_due t es :
  Forall (fun e => t < fst e) es -> due t es = [] /\ pending t es = es.
Proof.
  induction 1 as [|e es He _ [IH1 IH2]]; [now split|].
  unfold due, pending in *. cbn [filter].
  destruct (Z.leb_spec (fst e) t); [lia|]. cbn. now rewrite IH1, IH2.
Qed.

Lemma apply_due_spec t es : forall count,
  StronglySorted by_time es ->
  apply_due t count es = (count + total (due t es), pending t es).
Proof.
  induction es as [|e es IH]; intros count Hs.
  - cbn. now rewrite Z.add_0_r.
  - inversion Hs as [|? ? Hs' He]; subst.
    cbn [apply_due]. unfold due, pending in *. cbn [filter].
    destruct (Z.leb_spec (fst e) t) as [Hle|Hgt].
    + rewrite IH by assumption. cbn. f_equal. lia.
    + assert (Hall : Forall (fun x => t < fst x) es).
      { eapply Forall_impl; [|exact He]. unfold by_time. intros; lia. }
      destruct (nothing_due t es Hall) as [D P]. unfold due, pending in D, P.
      rewrite D, P. cbn. f_equal. lia.
Qed.

Lemma pending_sorted t es :
  StronglySorted by_time es -> StronglySorted by_time (pending t es).
Proof.
  induction 1 as [|e es Hs IH He]; [constructor|].
  unfold pending in *. cbn [filter]. destruct (negb (fst e <=? t)); [|exact IH].
  constructor; [exact IH|].
  apply Forall_forall. intros x Hx. apply filter_In in Hx.
  rewrite Forall_forall in He. now apply He.
Qed.

Lemma due_later t t' es :
  t <= t' ->
  total (due t' es) = total (due t es) + total (due t' (pending t es)).
Proof.
  intros Htt. induction es as [|e es IH]; [reflexivity|].
  unfold due, pending in *. cbn [filter].
  destruct (Z.leb_spec (fst e) t), (Z.leb_spec (fst e) t');
    cbn [negb filter total] in *;
    try (destruct (Z.leb_spec (fst e) t')); cbn [total]; lia.
Qed.

Lemma sweep_spec points : forall count es,
  StronglySorted Z.le points ->
  StronglySorted by_time es ->
  sweep points count es
  = map (fun t => (t, count + total (due t es))) points.
Proof.
  induction points as [|t points IH]; intros count es Hp Hs; [reflexivity|].
  inversion Hp as [|? ? Hp' Ht]; subst.
  cbn [sweep map]. rewrite apply_due_spec by assumption.
  f_equal. rewrite IH by (auto using pending_sorted).
  apply map_ext_in. intros t' Hin. f_equal.
  rewrite Forall_forall in Ht. specialize (Ht _ Hin).
  rewrite (due_later t t' es Ht). lia.
Qed.

(** **** Events against the containment rule *)

Lemma open_count_cons t tr trades :
  open_count t (tr :: trades)
  = (if open_at t tr then 1 else 0) + open_count t trades.
Proof.
  unfold open_count. cbn [filter]. destruct (open_at t tr); cbn [List.length]; lia.
Qed.

Lemma events_total t trades :
  forallb valid_interval trades = true ->
  total (due t (events trades)) = open_count t trades.
Proof.
  induction trades as [|tr trades IH]; intros Hv; [reflexivity|].
  cbn [forallb] in Hv. apply andb_true_iff in Hv. destruct Hv as [Hv Hvs].
  rewrite open_count_cons, <- (IH Hvs).
  unfold events. cbn [flat_map]. fold (events trades).
  change ((open_time tr, 1) ::
            match close_time tr with Some c => [(c, -1)] | None => [] end
            ++ events trades)
    with (((open_time tr, 1) ::
             match close_time tr with Some c => [(c, -1)] | None => [] end)
            ++ events trades).
  unfold due. rewrite filter_app, total_app. f_equal.
  unfold valid_interval, open_at in *.
  destruct (close_time tr) as [c|]; cbn [filter fst snd].
  - apply Z.leb_le in Hv.
    destruct (Z.leb_spec (open_time tr) t), (Z.leb_spec c t),
      (Z.ltb_spec t c); cbn; lia.
  - destruct (Z.leb_spec (open_time tr) t); cbn; lia.
Qed.

Lemma first_invalid_None i trades :
  first_invalid i trades = None <-> forallb valid_interval trades = true.
Proof.
  revert i; induction trades as [|tr trades IH]; intros i; cbn.
  - tauto.
  - destruct (valid_interval tr); cbn; [apply IH|]. split; discriminate.
Qed.

Lemma first_invalid_Some trades : forall i k,
  first_invalid i trades = Some k ->
  exists j tr, k = (i + j)%nat /\ nth_error trades j = Some tr /\
               valid_interval tr = false /\
               forallb valid_interval (firstn j trades) = true.
Proof.
  induction trades as [|tr trades IH]; intros i k H; cbn in H; [discriminate|].
  destruct (valid_interval tr) eqn:Hv.
  - destruct (IH _ _ H) as (j & tr' & -> & Hn & Hf & Hall).
    exists (S j), tr'. cbn. rewrite Hv. repeat split; auto; lia.
  - inversion H; subst. exists O, tr. cbn. repeat split; auto; lia.
Qed.

(** **** The grid *)

Lemma grid_points_nth n : forall t p k,
  (k < n)%nat -> nth_error (grid_points t p n) k = Some (t + Z.of_nat k * p).
Proof.
  induction n as [|n IH]; intros t p k Hk; [lia|].
  destruct k as [|k]; cbn [grid_points nth_error].
  - f_equal. lia.
  - rewrite IH by lia. f_equal. lia.
Qed.

Lemma grid_points_length n t p : List.length (grid_points t p n) = n.
Proof. revert t; induction n; intros; cbn; auto. Qed.

Lemma grid_points_lower n : forall t p x,
  0 < p -> In x (grid_points t p n) -> t <= x.
Proof.
  induction n as [|n IH]; intros t p x Hp Hin; cbn in Hin; [tauto|].
  destruct Hin as [->|Hin]; [lia|]. apply IH in Hin; lia.
Qed.

Lemma grid_points_sorted n : forall t p,
  0 < p -> StronglySorted Z.le (grid_points t p n).
Proof.
  induction n as [|n IH]; intros t p Hp; cbn; constructor; auto.
  apply Forall_forall. intros x Hx. apply grid_points_lower in Hx; lia.
Qed.

Lemma grid_sorted trades period : StronglySorted Z.le (grid trades period).
Proof.
  destruct trades; cbn; [constructor|]. apply grid_points_sorted. lia.
Qed.

Lemma maximum_ge xs : forall x, x <= maximum x xs.
Proof.
  unfold maximum. induction xs as [|y ys IH]; intros x; cbn; [lia|].
  specialize (IH (Z.max x y)). lia.
Qed.

Lemma minimum_le xs : forall x, minimum x xs <= x.
Proof.
  unfold minimum. induction xs as [|y ys IH]; intros x; cbn; [lia|].
  specialize (IH (Z.min x y)). lia.
Qed.

(** The analysis of a valid trade set is the naive count on the grid. *)
Lemma ParallelismAnalyzer_valid trades period :
  forallb valid_interval trades = true ->
  ParallelismAnalyzer trades period
  = Computed (map (fun t => (t, open_count t trades)) (grid trades period)).
Proof.
  intros Hv. unfold ParallelismAnalyzer.
  rewrite (proj2 (first_invalid_None 0 trades) Hv).
  rewrite sweep_spec by (auto using grid_sorted, sort_events_sorted).
  f_equal. apply map_ext. intros t.
  now rewrite due_sort_events, events_total.
Qed.

Lemma ParallelismAnalyzer_Computed trades period out :
  ParallelismAnalyzer trades period = Computed out ->
  forallb valid_interval trades = true /\
  out = map (fun t => (t, open_count t trades)) (grid trades period).
Proof.
  intros H. assert (Hv : forallb valid_interval trades = true).
  { unfold ParallelismAnalyzer in H.
    destruct (first_invalid 0 trades) eqn:E; [discriminate|].
    now apply first_invalid_None in E. }
  split; [exact Hv|]. rewrite ParallelismAnalyzer_valid in H by exact Hv.
  now inversion H.
Qed.

Ltac decide_bounds :=
  repeat match goal with
         | |- context [(?a <=? ?b)%Z] => destruct (Z.leb_spec a b); try lia
         | |- context [(?a <? ?b)%Z] => destruct (Z.ltb_spec a b); try lia
         end.

Lemma open_at_iff t tr :
  open_at t tr = true <->
  open_time tr <= t /\
  match close_time tr with Some c => t < c | None => True end.
Proof.
  unfold open_at. rewrite andb_true_iff, Z.leb_le.
  destruct (close_time tr); [rewrite Z.ltb_lt|]; tauto.
Qed.

(** C2: on a valid trade set the count at each grid timestamp [t] is the
    number of trades with [open_time <= t < close_time], a trade without
    close time being counted from its open time on, the last grid point
    included; trades A (t0 to t2) and B (t1 to t3) on the grid t0..t3 give
    the counts 1, 2, 1, 0. *)
Theorem containment_rule :
  (forall trades period,
      forallb valid_interval trades = true ->
      ParallelismAnalyzer trades period
      = Computed (map (fun t => (t, open_count t trades))
                      (grid trades period))) /\
  (forall t tr,
      open_at t tr = true <->
      open_time tr <= t /\
      match close_time tr with Some c => t < c | None => True end) /\
  (forall trades period out tr t c,
      ParallelismAnalyzer trades period = Computed out ->
      In tr trades -> close_time tr = None ->
      In (t, c) out -> open_time tr <= t ->
      open_at t tr = true /\ 1 <= c) /\
  (forall (t0 : Z) (period : positive) pa pb ra rb fa fb ga gb,
      let p := Z.pos period in
      ParallelismAnalyzer
        [mkTrade pa t0 (Some (t0 + 2 * p)) fa ga ra;
         mkTrade pb (t0 + p) (Some (t0 + 3 * p)) fb gb rb] period
      = Computed [(t0, 1); (t0 + p, 2); (t0 + 2 * p, 1); (t0 + 3 * p, 0)]).
Proof.
  split; [exact ParallelismAnalyzer_valid|].
  split; [exact open_at_iff|]. split.
  - intros trades period out tr t c Hout Hin Hclose Hc Ht.
    apply ParallelismAnalyzer_Computed in Hout. destruct Hout as [_ ->].
    assert (Hopen : open_at t tr = true)
      by (apply open_at_iff; rewrite Hclose; tauto).
    split; [exact Hopen|].
    apply in_map_iff in Hc. destruct Hc as (t' & Heq & _).
    inversion Heq; subst. unfold open_count.
    assert (Hf : In tr (filter (open_at t) trades))
      by (apply filter_In; tauto).
    destruct (filter (open_at t) trades); [contradiction|].
    cbn [List.length]. lia.
  - intros t0 period pa pb ra rb fa fb ga gb p.
    assert (Hp : 0 < p) by (unfold p; lia).
    rewrite ParallelismAnalyzer_valid
      by (cbn; rewrite andb_true_r; apply andb_true_iff;
          split; apply Z.leb_le; lia).
    f_equal.
    assert (Hg : grid [mkTrade pa t0 (Some (t0 + 2 * p)) fa ga ra;
                       mkTrade pb (t0 + p) (Some (t0 + 3 * p)) fb gb rb]
                      period
                 = [t0; t0 + p; t0 + 2 * p; t0 + 3 * p]).
    { unfold grid, minimum, maximum, observed, trade_end.
      cbn [map flat_map app fold_left open_time close_time]. fold p.
      replace (Z.min t0 (t0 + p)) with t0 by lia.
      replace (Z.max (t0 + 2 * p) (t0 + 3 * p)) with (t0 + 3 * p) by lia.
      replace (t0 + 3 * p - t0) with (3 * p) by lia.
      rewrite Z.div_mul by lia.
      change (Z.to_nat (3 + 1)) with 4%nat. cbn [grid_points].
      replace (t0 + p + p) with (t0 + 2 * p) by lia.
      replace (t0 + 2 * p + p) with (t0 + 3 * p) by lia.
      reflexivity. }
    rewrite Hg. cbn [map]. unfold open_count, open_at.
    cbn [filter open_time close_time].
    decide_bounds; reflexivity.
Qed.

Lemma containment_rule_witness :
  ParallelismAnalyzer [Examples.trade_A; Examples.trade_open] 5
  = Computed
      (map (fun t => (t, open_count t [Examples.trade_A; Examples.trade_open]))
           (grid [Examples.trade_A; Examples.trade_open] 5)).
Proof.
  exact (proj1 containment_rule [Examples.trade_A; Examples.trade_open]
               5%positive eq_refl).
Defined.

Lemma grid_points_step n t p i a b :
  nth_error (grid_points t p n) i = Some a ->
  nth_error (grid_points t p n) (S i) = Some b ->
  b = a + p.
Proof.
  intros Ha Hb.
  assert (Hi : (S i < List.length (grid_points t p n))%nat)
    by (apply nth_error_Some; congruence).
  rewrite grid_points_length in Hi.
  rewrite grid_points_nth in Ha, Hb by lia.
  rewrite Nat2Z.inj_succ in Hb.
  injection Ha as <-. injection Hb as <-. lia.
Qed.

Lemma grid_nonempty tr trades period :
  forallb valid_interval (tr :: trades) = true ->
  grid (tr :: trades) period <> [].
Proof.
  intros Hv. cbn [forallb] in Hv. apply andb_true_iff in Hv.
  destruct Hv as [Hv _]. unfold grid.
  set (start := minimum (open_time tr) (map open_time trades)).
  set (latest := maximum (open_time tr) (observed (tr :: trades))).
  set (stop := maximum (trade_end latest tr) (map (trade_end latest) trades)).
  assert (H1 : start <= open_time tr) by apply minimum_le.
  assert (H2 : trade_end latest tr <= stop) by apply maximum_ge.
  assert (H3 : open_time tr <= trade_end latest tr).
  { unfold trade_end, valid_interval in *.
    destruct (close_time tr); [now apply Z.leb_le|apply maximum_ge]. }
  assert (H4 : 0 <= (stop - start) / Z.pos period)
    by (apply Z.div_pos; lia).
  destruct (Z.to_nat ((stop - start) / Z.pos period + 1)) eqn:E; [lia|].
  discriminate.
Qed.

(** C4: without trades the output is empty; otherwise the output has one
    point per grid timestamp, consecutive timestamps differ by exactly the
    period (so they increase strictly), every count is non-negative, and a
    non-empty trade set gives a non-empty output. *)
Theorem grid_is_regular :
  (forall period, grid [] period = [] /\
                  ParallelismAnalyzer [] period = Computed []) /\
  (forall trades period out,
      ParallelismAnalyzer trades period = Computed out ->
      map fst out = grid trades period /\
      (forall i t t',
          nth_error (map fst out) i = Some t ->
          nth_error (map fst out) (S i) = Some t' ->
          t' = t + Z.pos period /\ t < t') /\
      (forall t c, In (t, c) out -> 0 <= c) /\
      (trades <> [] -> out <> [])).
Proof.
  split; [intros period; split; reflexivity|].
  intros trades period out Hout.
  apply ParallelismAnalyzer_Computed in Hout. destruct Hout as [Hv ->].
  assert (Hfst : map fst (map (fun t => (t, open_count t trades))
                              (grid trades period)) = grid trades period).
  { rewrite map_map. cbn. apply map_id. }
  split; [exact Hfst|]. split; [|split].
  - rewrite Hfst. intros i t t' Ht Ht'.
    destruct trades as [|tr trades]; [destruct i; discriminate|].
    unfold grid in Ht, Ht'.
    pose proof (grid_points_step _ _ _ _ _ _ Ht Ht'). lia.
  - intros t c Hin. apply in_map_iff in Hin. destruct Hin as (t' & Heq & _).
    inversion Heq; subst. unfold open_count. lia.
  - intros Hne Hnil. destruct trades as [|tr trades]; [congruence|].
    apply map_eq_nil in Hnil. now apply (grid_nonempty tr trades period).
Qed.

Lemma grid_is_regular_witness :
  map fst [(0, 1); (5, 2); (10, 1); (15, 0)]
  = grid [Examples.trade_A; Examples.trade_B] 5 /\
  (forall i t t',
      nth_error (map fst [(0, 1); (5, 2); (10, 1); (15, 0)]) i = Some t ->
      nth_error (map fst [(0, 1); (5, 2); (10, 1); (15, 0)]) (S i) = Some t' ->
      t' = t + 5 /\ t < t') /\
  (forall t c, In (t, c) [(0, 1); (5, 2); (10, 1); (15, 0)] -> 0 <= c) /\
  ([Examples.trade_A; Examples.trade_B] <> [] ->
   [(0, 1); (5, 2); (10, 1); (15, 0)] <> []).
Proof.
  exact (proj2 grid_is_regular [Examples.trade_A; Examples.trade_B]
               5%positive _ eq_refl).
Defined.

(** C8: a trade set with a record whose close time precedes its open time
    is rejected with [InvalidIntervalError] naming the first such record;
    no point is produced. *)
Theorem negative_interval_rejected trades period tr c :
  In tr trades -> close_time tr = Some c -> c < open_time tr ->
  exists i bad,
    ParallelismAnalyzer trades period = Rejected (InvalidIntervalError i) /\
    nth_error trades i = Some bad /\
    valid_interval bad = false /\
    forallb valid_interval (firstn i trades) = true.
Proof.
  intros Hin Hc Hlt. unfold ParallelismAnalyzer.
  destruct (first_invalid 0 trades) as [k|] eqn:E.
  - destruct (first_invalid_Some _ _ _ E) as (j & bad & -> & Hn & Hb & Hall).
    exists j, bad. auto.
  - apply first_invalid_None in E. rewrite forallb_forall in E.
    specialize (E _ Hin). unfold valid_interval in E. rewrite Hc in E.
    apply Z.leb_le in E. lia.
Qed.

Lemma negative_interval_rejected_witness :
  exists i bad,
    ParallelismAnalyzer [Examples.trade_A; Examples.trade_inverted] 5
    = Rejected (InvalidIntervalError i) /\
    nth_error [Examples.trade_A; Examples.trade_inverted] i = Some bad /\
    valid_interval bad = false /\
    forallb valid_interval
            (firstn i [Examples.trade_A; Examples.trade_inverted]) = true.
Proof.
  apply (negative_interval_rejected
           [Examples.trade_A; Examples.trade_inverted] 5%positive
           Examples.trade_inverted 5).
  - right; left; reflexivity.
  - reflexivity.
  - reflexivity.
Defined.

End ParallelismFacts.

Module SummaryFacts.
Import Analytics.

Lemma compare_refl a : String.compare a a = Eq.
Proof. exact (proj2 (String_as_OT.cmp_eq a a) eq_refl). Qed.

Lemma key_lt_trans a b c : key_lt a b -> key_lt b c -> key_lt a c.
Proof.
  unfold key_lt. intros H1 H2.
  apply String_as_OT.cmp_lt in H1. apply String_as_OT.cmp_lt in H2.
  apply String_as_OT.cmp_lt. eapply String_as_OT.lt_trans; eassumption.
Qed.

Lemma compare_cases a b :
  (a = b /\ String.compare a b = Eq) \/
  (String.compare a b = Lt /\ String.compare b a = Gt) \/
  (String.compare a b = Gt /\ String.compare b a = Lt).
Proof.
  pose proof (String.compare_antisym a b) as H.
  destruct (String.compare a b) eqn:E.
  - left. split; [now apply String.compare_eq_iff|reflexivity].
  - right; left. split; [reflexivity|].
    destruct (String.compare b a); cbn in H; congruence.
  - right; right. split; [reflexivity|].
    destruct (String.compare b a); cbn in H; congruence.
Qed.

Lemma compare_Gt a b : String.compare a b = Gt -> key_lt b a.
Proof.
  intros H. destruct (compare_cases a b) as [[_ E]|[[E _]|[_ E]]];
    congruence || exact E.
Qed.

(** Closes a goal whose hypotheses order three keys inconsistently. *)
Ltac order_contra :=
  exfalso;
  repeat match goal with
         | H : String.compare _ _ = Gt |- _ => apply compare_Gt in H
         | H : String.compare ?x ?y = Eq |- _ =>
             apply String.compare_eq_iff in H; subst
         end;
  unfold key_lt in *;
  repeat match goal with
         | H1 : String.compare ?x ?y = Lt, H2 : String.compare ?y ?z = Lt
           |- _ =>
             lazymatch goal with
             | _ : String.compare x z = Lt |- _ => fail
             | _ =>
                 assert (String.compare x z = Lt)
                   by exact (key_lt_trans x y z H1 H2)
             end
         end;
  unfold key_lt in *;
  repeat match goal with
         | H : String.compare ?x ?x = Lt |- _ =>
             rewrite compare_refl in H; discriminate
         end.

Lemma count_key_comm a b summary :
  count_key a (count_key b summary) = count_key b (count_key a summary).
Proof.
  induction summary as [|[k n] m IH]; cbn [count_key].
  - destruct (compare_cases a b) as [[-> H]|[[H1 H2]|[H1 H2]]];
      rewrite ?H, ?H1, ?H2; cbn [count_key]; reflexivity.
  - destruct (String.compare a k) eqn:Hak;
      destruct (String.compare b k) eqn:Hbk;
      cbn [count_key]; rewrite ?Hak, ?Hbk;
      destruct (compare_cases a b) as [[-> H]|[[H1 H2]|[H1 H2]]];
      rewrite ?H, ?H1, ?H2, ?compare_refl; cbn [count_key];
      rewrite ?Hak, ?Hbk, ?IH;
      try reflexivity; try congruence; order_contra.
Qed.

Lemma summary_permutation (key : Trade -> string) trades trades' :
  Permutation trades trades' ->
  forall summary,
    fold_left (fun acc tr => count_key (key tr) acc) trades summary
    = fold_left (fun acc tr => count_key (key tr) acc) trades' summary.
Proof.
  induction 1 as [|x l l' _ IH|x y l|l l' l'' _ IH1 _ IH2]; intros summary;
    cbn [fold_left].
  - reflexivity.
  - apply IH.
  - now rewrite count_key_comm.
  - now rewrite IH1.
Qed.

Lemma count_key_head k summary :
  forall lower, HdRel key_lt lower (map fst summary) -> key_lt lower k ->
                HdRel key_lt lower (map fst (count_key k summary)).
Proof.
  intros lower Hhd Hlt. destruct summary as [|[k' n] m]; cbn.
  - now constructor.
  - inversion Hhd; subst.
    destruct (String.compare k k'); cbn; now constructor.
Qed.

Lemma count_key_sorted k summary :
  ascending_keys summary -> ascending_keys (count_key k summary).
Proof.
  unfold ascending_keys.
  induction summary as [|[k' n] m IH]; intros Hs; cbn.
  - repeat constructor.
  - cbn in Hs. inversion Hs as [|? ? Hm Hhd]; subst.
    destruct (String.compare k k') eqn:E; cbn.
    + now constructor.
    + constructor; [exact Hs|]. now constructor.
    + constructor; [now apply IH|].
      apply count_key_head; [exact Hhd|now apply compare_Gt].
Qed.

Lemma summary_sorted (key : Trade -> string) trades : forall summary,
  ascending_keys summary ->
  ascending_keys
    (fold_left (fun acc tr => count_key (key tr) acc) trades summary).
Proof.
  induction trades as [|tr trades IH]; intros summary Hs; cbn; auto.
  apply IH. now apply count_key_sorted.
Qed.

(** C7: the summary of a trade set does not depend on the order of its
    records (in particular two runs on the same records agree), and its
    keys come out in strictly ascending lexicographic order. *)
Theorem summary_is_deterministic (key : Trade -> string) trades trades' :
  Permutation trades trades' ->
  GroupedTradeSummary key trades = GroupedTradeSummary key trades' /\
  ascending_keys (GroupedTradeSummary key trades).
Proof.
  intros Hp. split.
  - now apply summary_permutation.
  - apply summary_sorted. constructor.
Qed.

Lemma summary_is_deterministic_witness :
  GroupedTradeSummary pair
    [Examples.trade_B; Examples.trade_A; Examples.trade_open]
  = GroupedTradeSummary pair
      [Examples.trade_A; Examples.trade_B; Examples.trade_open] /\
  ascending_keys
    (GroupedTradeSummary pair
       [Examples.trade_B; Examples.trade_A; Examples.trade_open]).
Proof.
  apply (summary_is_deterministic pair).
  apply perm_swap.
Defined.

End SummaryFacts.

(** * Further properties of cell In[20] *)

Module EquityLoopFacts.
Import Py Notebook Closing NotebookFacts.
Local Open Scope stmt_scope.

Lemma running_app e a : forall b,
  running e (a ++ b)
  = running e a ++ running (fold_left PrimFloat.add a e) b.
Proof.
  revert e; induction a as [|x a IH]; intros e b; cbn; [reflexivity|].
  now rewrite IH.
Qed.

Lemma equity_column_snoc fs x :
  equity_column (fs ++ [x]) = equity_column fs ++ [closing_equity fs].
Proof.
  destruct fs as [|y fs]; cbn; [reflexivity|].
  now rewrite running_app, map_app.
Qed.

Lemma closing_equity_snoc fs x :
  py_add (closing_equity fs) (PyFloat x) = Ok (closing_equity (fs ++ [x])).
Proof.
  destruct fs as [|y fs]; cbn -[Z2float]; [reflexivity|].
  now rewrite fold_left_app.
Qed.

Lemma closing_equity_value fs : num_value (closing_equity fs) = Some (fsum fs).
Proof. destruct fs; reflexivity. Qed.

Lemma for_each_app (A : Type) (xs ys : list A) (body : A -> M unit) g :
  for_each (xs ++ ys) body g
  = (for_each xs body ;; for_each ys body) g.
Proof.
  revert g; induction xs as [|x xs IH]; intros g; cbn [app for_each].
  - reflexivity.
  - unfold bind. destruct (body x g) as [[u|e] g1]; [|reflexivity].
    rewrite IH. reflexivity.
Qed.

(** The invariant of the second loop: after the profits converted to [fs0]
    the global [equity] is their closing total and [equity_daily] their
    column; the loop keeps it, and stops at the first profit [float]
    rejects, after having appended the total reached. *)
Lemma equity_loop_invariant stf ps : forall fs0 g,
  equity g = closing_equity fs0 ->
  equity_daily g = equity_column fs0 ->
  match float_all stf ps with
  | Ok fs =>
      for_each ps (equity_step stf) g
      = (Ok tt, mkGlobals (dates g) (profits g)
                          (closing_equity (fs0 ++ fs))
                          (equity_column (fs0 ++ fs)))
  | Raise ex =>
      exists good bad rest fs1,
        ps = good ++ bad :: rest /\
        float_all stf good = Ok fs1 /\
        py_float stf bad = Raise ex /\
        for_each ps (equity_step stf) g
        = (Raise ex,
           mkGlobals (dates g) (profits g)
                     (closing_equity (fs0 ++ fs1))
                     (equity_column (fs0 ++ fs1)
                        ++ [closing_equity (fs0 ++ fs1)]))
  end.
Proof.
  induction ps as [|p ps IH]; intros fs0 g He Hd.
  - cbn. unfold ret. rewrite app_nil_r, <- He, <- Hd. now destruct g.
  - cbn [float_all for_each]. unfold bind. rewrite equity_step_run.
    destruct (py_float stf p) as [x|ex] eqn:Hp; cbn [rbind].
    + rewrite He, closing_equity_snoc, Hd, <- (equity_column_snoc fs0 x).
      specialize (IH (fs0 ++ [x])
                     (mkGlobals (dates g) (profits g)
                                (closing_equity (fs0 ++ [x]))
                                (equity_column (fs0 ++ [x])))
                     eq_refl eq_refl).
      destruct (float_all stf ps) as [fs|ex]; cbn [rbind].
      * rewrite IH. cbn. now rewrite <- app_assoc.
      * destruct IH as (good & bad & rest & fs1 & -> & Hg & Hb & Hrun).
        exists (p :: good), bad, rest, (x :: fs1).
        repeat split; auto.
        -- cbn. now rewrite Hp, Hg.
        -- rewrite Hrun. cbn. now rewrite <- app_assoc.
    + exists [], p, ps, []. rewrite app_nil_r, He, Hd. auto.
Qed.

(** After a run that returns, the globals hold the two input columns, the
    plotted column and, in [equity], the total of all the profits: the
    closing equity, which is not in the column. *)
Theorem closing_total_stays_in_equity stf g dp fs :
  float_all stf (map snd dp) = Ok fs ->
  cell_In20 stf dp g
  = (Ok (mkDataFrame (map fst dp) (equity_column fs)),
     mkGlobals (map fst dp) (map snd dp)
               (closing_equity fs) (equity_column fs)) /\
  num_value (closing_equity fs) = Some (fsum fs).
Proof.
  intros Hfs. split; [|apply closing_equity_value].
  rewrite cell_reset. unfold bind at 1.
  pose proof (equity_loop_invariant stf (map snd dp) [] (loop_entry dp)
                                    eq_refl eq_refl) as H.
  rewrite Hfs in H. rewrite H. cbn.
  unfold pd_DataFrame.
  rewrite equity_column_length, (float_all_length _ _ _ Hfs), !length_map.
  now rewrite Nat.eqb_refl.
Qed.

Lemma closing_total_stays_in_equity_witness :
  cell_In20 (Examples.table_parser []) Examples.three_days Examples.stale
  = (Ok (mkDataFrame (map fst Examples.three_days)
                     (equity_column [10; -5; 20]%float)),
     mkGlobals (map fst Examples.three_days) (map snd Examples.three_days)
               (closing_equity [10; -5; 20]%float)
               (equity_column [10; -5; 20]%float)) /\
  num_value (closing_equity [10; -5; 20]%float)
  = Some (fsum [10; -5; 20]%float).
Proof.
  exact (closing_total_stays_in_equity (Examples.table_parser [])
           Examples.stale Examples.three_days [10; -5; 20]%float eq_refl).
Defined.

(** The first profit that [float] rejects stops the run with the exception
    of [float]: no frame is built, [dates] and [profits] are complete, and
    [equity_daily] ends with the total reached before that day. *)
Theorem rejected_profit_stops_the_run stf g dp1 d p dp2 fs e :
  float_all stf (map snd dp1) = Ok fs ->
  py_float stf p = Raise e ->
  cell_In20 stf (dp1 ++ (d, p) :: dp2) g
  = (Raise e,
     mkGlobals (map fst (dp1 ++ (d, p) :: dp2))
               (map snd (dp1 ++ (d, p) :: dp2))
               (closing_equity fs)
               (equity_column fs ++ [closing_equity fs])).
Proof.
  intros Hfs Hp. rewrite cell_reset. unfold bind at 1.
  set (dp := dp1 ++ (d, p) :: dp2).
  assert (Hs : map snd dp = map snd dp1 ++ p :: map snd dp2)
    by (unfold dp; now rewrite map_app).
  rewrite Hs at 1. rewrite for_each_app. unfold bind at 1.
  pose proof (equity_loop_invariant stf (map snd dp1) [] (loop_entry dp)
                                    eq_refl eq_refl) as H.
  rewrite Hfs in H. rewrite H. cbn [app for_each].
  unfold bind at 1. rewrite equity_step_run, Hp. reflexivity.
Qed.

Lemma rejected_profit_stops_the_run_witness :
  cell_In20 (Examples.table_parser [])
            ([(PyStr "2021-01-01", PyFloat 10)]
               ++ (PyStr "2021-01-02", PyNone)
               :: [(PyStr "2021-01-03", PyFloat 20)])
            Examples.stale
  = (Raise TypeError,
     mkGlobals [PyStr "2021-01-01"; PyStr "2021-01-02"; PyStr "2021-01-03"]
               [PyFloat 10; PyNone; PyFloat 20]
               (PyFloat 10) [PyInt 0; PyFloat 10]).
Proof.
  exact (rejected_profit_stops_the_run (Examples.table_parser [])
           Examples.stale [(PyStr "2021-01-01", PyFloat 10)]
           (PyStr "2021-01-02") PyNone [(PyStr "2021-01-03", PyFloat 20)]
           [10%float] TypeError eq_refl eq_refl).
Defined.




Lemma float_all_app stf ps qs :
  float_all stf (ps ++ qs)
  = rbind (float_all stf ps) (fun fs =>
    rbind (float_all stf qs) (fun gs => Ok (fs ++ gs))).
Proof.
  induction ps as [|p ps IH]; cbn.
  - now destruct (float_all stf qs).
  - destruct (py_float stf p); cbn; [|reflexivity].
    rewrite IH. destruct (float_all stf ps); cbn; [|reflexivity].
    now destruct (float_all stf qs).
Qed.

(** The profit of the last day is never shown: whatever accepted value it
    has, the rows are the same. *)
Theorem last_profit_not_shown stf g dp d p p' x x' :
  py_float stf p = Ok x ->
  py_float stf p' = Ok x' ->
  EquityCurveBuilder stf g (dp ++ [(d, p)])
  = EquityCurveBuilder stf g (dp ++ [(d, p')]).
Proof.
  intros Hp Hp'. rewrite !EquityCurveBuilder_result, !map_app. cbn [map snd fst].
  rewrite !float_all_app. cbn [float_all]. rewrite Hp, Hp'. cbn [rbind].
  destruct (float_all stf (map snd dp)) as [fs|ex]; cbn [rbind]; [|reflexivity].
  now rewrite !equity_column_snoc.
Qed.

Lemma last_profit_not_shown_witness :
  EquityCurveBuilder (Examples.table_parser []) Examples.stale
    ([(PyStr "2021-01-01", PyFloat 10)] ++ [(PyStr "2021-01-02", PyFloat 20)])
  = EquityCurveBuilder (Examples.table_parser []) Examples.stale
      ([(PyStr "2021-01-01", PyFloat 10)] ++ [(PyStr "2021-01-02", PyInt 7)]).
Proof.
  exact (last_profit_not_shown (Examples.table_parser []) Examples.stale
           [(PyStr "2021-01-01", PyFloat 10)] (PyStr "2021-01-02")
           (PyFloat 20) (PyInt 7) 20%float 7%float eq_refl eq_refl).
Defined.

Lemma equity_column_app fs gs :
  exists tl, equity_column (fs ++ gs) = equity_column fs ++ tl.
Proof.
  destruct fs as [|y fs]; cbn -[Z2float].
  - now exists (equity_column gs).
  - rewrite running_app, map_app. eexists. reflexivity.
Qed.

Lemma firstn_exact (A : Type) (l tl : list A) :
  firstn (List.length l) (l ++ tl) = l.
Proof.
  rewrite firstn_app, firstn_all, Nat.sub_diag. cbn. apply app_nil_r.
Qed.

(** Later days do not change earlier rows: the curve of the first days of a
    series is the beginning of the curve of the whole series. *)
Theorem prefix_of_curve stf g dp1 dp2 out :
  EquityCurveBuilder stf g (dp1 ++ dp2) = Ok out ->
  EquityCurveBuilder stf g dp1 = Ok (firstn (List.length dp1) out).
Proof.
  rewrite !EquityCurveBuilder_result, !map_app, float_all_app.
  destruct (float_all stf (map snd dp1)) as [fs1|] eqn:H1; cbn [rbind];
    [|discriminate].
  destruct (float_all stf (map snd dp2)) as [fs2|]; cbn [rbind];
    [|discriminate].
  intros H. inversion H; subst. f_equal.
  apply float_all_length in H1. rewrite length_map in H1.
  destruct (equity_column_app fs1 fs2) as [tl ->].
  rewrite combine_firstn.
  replace (List.length dp1) with (List.length (map fst dp1)) at 1
    by apply length_map.
  rewrite firstn_exact.
  replace (List.length dp1) with (List.length (equity_column fs1))
    by (rewrite equity_column_length; exact H1).
  now rewrite firstn_exact.
Qed.

Lemma prefix_of_curve_witness :
  EquityCurveBuilder (Examples.table_parser []) Examples.stale
                     [(PyStr "2021-01-01", PyFloat 10)]
  = Ok (firstn 1 [(PyStr "2021-01-01", PyInt 0);
                  (PyStr "2021-01-02", PyFloat 10)]).
Proof.
  exact (prefix_of_curve (Examples.table_parser []) Examples.stale
           [(PyStr "2021-01-01", PyFloat 10)]
           [(PyStr "2021-01-02", PyFloat 20)] _ eq_refl).
Defined.

(** **** Special values of binary64 addition *)

Lemma nan_add_l x : (nan + x)%float = nan.
Proof. apply Prim2SF_inj. rewrite add_spec. reflexivity. Qed.

Lemma add_nan_r x : (x + nan)%float = nan.
Proof.
  apply Prim2SF_inj. rewrite add_spec.
  change (Prim2SF nan) with S754_nan.
  now destruct (Prim2SF x).
Qed.

Lemma zero_add_l x : x <> (-0)%float -> (0 + x)%float = x.
Proof.
  intros Hx. apply Prim2SF_inj. rewrite add_spec.
  change (Prim2SF 0) with (S754_zero false).
  destruct (Prim2SF x) as [[|]| | |] eqn:E; try reflexivity.
  exfalso. apply Hx. rewrite <- (SF2Prim_Prim2SF x), E. reflexivity.
Qed.

Lemma fold_nan fs : fold_left PrimFloat.add fs nan = nan.
Proof. induction fs as [|x fs IH]; cbn; [reflexivity|]. now rewrite nan_add_l. Qed.

Lemma fold_through_nan fs : forall k i e,
  nth_error fs k = Some nan -> (k < i)%nat ->
  fold_left PrimFloat.add (firstn i fs) e = nan.
Proof.
  induction fs as [|x fs IH]; intros k i e Hk Hi.
  - destruct k; discriminate.
  - destruct i as [|i]; [lia|]. cbn [firstn fold_left].
    destruct k as [|k]; cbn in Hk.
    + inversion Hk; subst. rewrite add_nan_r. apply fold_nan.
    + apply (IH k); [exact Hk|lia].
Qed.

Lemma equity_column_later fs i v :
  nth_error (equity_column fs) (S i) = Some v -> exists f, v = PyFloat f.
Proof.
  destruct fs as [|x fs]; [discriminate|].
  cbn [equity_column nth_error]. intros H.
  apply nth_error_In, in_map_iff in H. destruct H as (f & <- & _). eauto.
Qed.

(** A day whose profit converts to NaN makes the equity of every later day
    NaN. *)
Theorem nan_poisons_later_days stf g dp out k d p i d' v :
  EquityCurveBuilder stf g dp = Ok out ->
  nth_error dp k = Some (d, p) ->
  py_float stf p = Ok nan ->
  (k < i)%nat ->
  nth_error out i = Some (d', v) ->
  v = PyFloat nan.
Proof.
  intros Hout Hk Hp Hi Hv.
  apply EquityCurveBuilder_Ok in Hout. destruct Hout as (fs & Hfs & Hlen & ->).
  assert (Hc : List.length (map fst dp) = List.length (equity_column fs))
    by now rewrite equity_column_length, length_map.
  assert (Hv' : nth_error (equity_column fs) i = Some v).
  { rewrite <- (map_snd_combine _ _ Hc), nth_error_map, Hv. reflexivity. }
  assert (Hk' : nth_error (map snd dp) k = Some p)
    by (rewrite nth_error_map, Hk; reflexivity).
  destruct (float_all_nth _ _ _ _ _ Hfs Hk') as (x & Hx & Hpx).
  assert (x = nan) by congruence. subst x.
  pose proof (equity_column_sum _ _ _ Hv') as Hsum.
  destruct i as [|i]; [lia|].
  destruct (equity_column_later _ _ _ Hv') as [f ->].
  assert (Hf : f = fsum (firstn (S i) fs))
    by (change (num_value (PyFloat f)) with (Some f) in Hsum; congruence).
  rewrite Hf. f_equal.
  unfold fsum. now apply (fold_through_nan fs k).
Qed.

Lemma nan_poisons_later_days_witness : PyFloat nan = PyFloat nan.
Proof.
  exact (nan_poisons_later_days (Examples.table_parser []) Examples.stale
           [(PyStr "2021-01-01", PyFloat nan);
            (PyStr "2021-01-02", PyFloat 5);
            (PyStr "2021-01-03", PyFloat 1)]
           _ 0 (PyStr "2021-01-01") (PyFloat nan) 2
           (PyStr "2021-01-03") (PyFloat nan)
           eq_refl eq_refl eq_refl (le_S 1 1 (le_n 1)) eq_refl).
Defined.

(** The integer [0] the total starts from does not disturb the first
    addition: the equity shown for the second day is [float] of the first
    profit, bit for bit, unless that is negative zero (shown as 0.0). *)
Theorem second_day_is_first_profit stf g d0 p0 d1 p1 dp out x :
  EquityCurveBuilder stf g ((d0, p0) :: (d1, p1) :: dp) = Ok out ->
  py_float stf p0 = Ok x ->
  (x <> (-0)%float -> nth_error out 1 = Some (d1, PyFloat x)) /\
  (x = (-0)%float -> nth_error out 1 = Some (d1, PyFloat 0)).
Proof.
  intros Hout Hp.
  apply EquityCurveBuilder_Ok in Hout. destruct Hout as (fs & Hfs & _ & ->).
  cbn in Hfs. rewrite Hp in Hfs. cbn in Hfs.
  destruct (py_float stf p1) as [x1|]; cbn in Hfs; [|discriminate].
  destruct (float_all stf (map snd dp)) as [fs'|]; cbn in Hfs; [|discriminate].
  inversion Hfs; subst. cbn -[Z2float].
  change (Z2float 0) with 0%float. split.
  - intros Hx. now rewrite zero_add_l.
  - intros ->. reflexivity.
Qed.

Lemma second_day_is_first_profit_witness :
  ((-5)%float <> (-0)%float ->
   nth_error [(PyStr "2021-01-01", PyInt 0); (PyStr "2021-01-02", PyFloat (-5))]
             1 = Some (PyStr "2021-01-02", PyFloat (-5))) /\
  ((-5)%float = (-0)%float ->
   nth_error [(PyStr "2021-01-01", PyInt 0); (PyStr "2021-01-02", PyFloat (-5))]
             1 = Some (PyStr "2021-01-02", PyFloat 0)).
Proof.
  exact (second_day_is_first_profit (Examples.table_parser []) Examples.stale
           (PyStr "2021-01-01") (PyFloat (-5)) (PyStr "2021-01-02")
           (PyFloat 1) [] _ (-5)%float eq_refl eq_refl).
Defined.

End EquityLoopFacts.

(** * Properties of cell In[5] *)

Module ProjectRootFacts.
Import ProjectRoot.
Local Open Scope Z_scope.

Lemma ancestor_prefix k : forall p : path,
  ancestor k p = firstn (List.length p - k) p.
Proof.
  induction k as [|k IH]; intros p; cbn [ancestor].
  - now rewrite Nat.sub_0_r, firstn_all.
  - rewrite IH. unfold parent. rewrite removelast_firstn_len.
    rewrite firstn_firstn. f_equal.
    rewrite length_firstn. lia.
Qed.

Section Search.

Variable has_license : path -> bool.
Variable can_enter : path -> bool.

(** More turns than needed do not change what the loop returns. *)
Lemma while_loop_more_fuel fuel : forall s r fuel',
  while_loop has_license can_enter fuel s = Some r ->
  (fuel <= fuel')%nat ->
  while_loop has_license can_enter fuel' s = Some r.
Proof.
  induction fuel as [|fuel IH]; intros s r fuel' H Hle; [discriminate|].
  destruct fuel' as [|fuel']; [lia|]. cbn [while_loop] in *.
  destruct ((i s <? 4) && negb (has_license (cwd s))); [|exact H].
  destruct (chdir can_enter (parent (cwd s)) s) as [s'|e s']; [|exact H].
  apply (IH _ _ _ H). lia.
Qed.

(** The loop climbs until a directory has a LICENSE, the counter reaches 4
    or a directory cannot be entered. *)
Lemma while_loop_spec n : forall fuel s,
  4 - i s = Z.of_nat n ->
  (n < fuel)%nat ->
  exists k,
    (k <= n)%nat /\
    (forall j, (j < k)%nat ->
               has_license (ancestor j (cwd s)) = false /\
               can_enter (ancestor (S j) (cwd s)) = true) /\
    ((while_loop has_license can_enter fuel s
      = Some (Done (mkState (ancestor k (cwd s)) (i s + Z.of_nat k)
                            (project_root s))) /\
      ((k < n)%nat -> has_license (ancestor k (cwd s)) = true)) \/
     ((k < n)%nat /\
      has_license (ancestor k (cwd s)) = false /\
      can_enter (ancestor (S k) (cwd s)) = false /\
      while_loop has_license can_enter fuel s
      = Some (Raised OSError
                     (mkState (ancestor k (cwd s)) (i s + Z.of_nat k)
                              (project_root s))))).
Proof.
  induction n as [|n IH]; intros fuel s Hi Hf;
    (destruct fuel as [|fuel]; [lia|]); cbn [while_loop].
  - exists O. split; [lia|]. split; [intros; lia|]. left.
    destruct (Z.ltb_spec (i s) 4); [lia|]. cbn. split; [|lia].
    rewrite Z.add_0_r. now destruct s.
  - destruct (Z.ltb_spec (i s) 4); [|lia]. cbn [andb].
    destruct (has_license (cwd s)) eqn:Hl; cbn [negb].
    + exists O. split; [lia|]. split; [intros; lia|]. left.
      cbn. split; [|auto]. rewrite Z.add_0_r. now destruct s.
    + unfold chdir. destruct (can_enter (parent (cwd s))) eqn:Hc.
      * cbn [cwd i project_root].
        destruct (IH fuel (mkState (parent (cwd s)) (i s + 1) (project_root s)))
          as (k & Hk & Hbelow & Hres); [cbn [i]; lia|lia|].
        cbn [cwd i project_root] in *.
        exists (S k). split; [lia|]. split.
        -- intros [|j] Hj; [cbn; auto|]. cbn [ancestor]. apply Hbelow. lia.
        -- cbn [ancestor].
           replace (i s + Z.of_nat (S k)) with (i s + 1 + Z.of_nat k) by lia.
           destruct Hres as [[Hrun Hlic]|(Hlt & Hno & Hce & Hrun)].
           ++ left. split; [exact Hrun|]. intros; apply Hlic; lia.
           ++ right. repeat split; auto. lia.
      * exists O. split; [lia|]. split; [intros; lia|]. right.
        cbn. repeat split; auto; try lia.
        rewrite Z.add_0_r. now destruct s.
Qed.

(** When every directory can be entered, the cell ends in the nearest of the
    directories 0 to 3 levels above the start that has a LICENSE, or else 4
    levels up (at the root when the start is less deep); [i] is the number
    of levels climbed and [project_root] the directory reached. *)
Theorem root_search_result fuel s0 :
  (forall p, can_enter p = true) ->
  (5 <= fuel)%nat ->
  exists k,
    (k <= 4)%nat /\
    cell_In5 has_license can_enter fuel s0
    = Some (Done (mkState (ancestor k (cwd s0)) (Z.of_nat k)
                          (RootPath (ancestor k (cwd s0))))) /\
    ancestor k (cwd s0) = firstn (List.length (cwd s0) - k) (cwd s0) /\
    (forall j, (j < k)%nat -> has_license (ancestor j (cwd s0)) = false) /\
    ((k < 4)%nat -> has_license (ancestor k (cwd s0)) = true).
Proof.
  intros Hce Hfuel. unfold cell_In5, try_body.
  destruct (while_loop_spec 4 fuel
              (mkState (cwd s0) 0 (RootStr "somedir/freqtrade")))
    as (k & Hk & Hbelow & Hres); [reflexivity|lia|].
  cbn [cwd i project_root] in *.
  exists k. split; [exact Hk|].
  destruct Hres as [[Hrun Hlic]|(_ & _ & Hno & _)].
  - rewrite Hrun. cbn. split; [reflexivity|].
    split; [apply ancestor_prefix|]. split; [|exact Hlic].
    intros j Hj. now apply Hbelow.
  - rewrite Hce in Hno. discriminate.
Qed.

(** The cell always finishes: five turns of the loop are enough, whatever
    the file system, and more turns give the same outcome. *)
Theorem root_search_terminates s0 :
  exists r, forall fuel, (5 <= fuel)%nat ->
                         cell_In5 has_license can_enter fuel s0 = Some r.
Proof.
  destruct (while_loop_spec 4 5
              (mkState (cwd s0) 0 (RootStr "somedir/freqtrade")))
    as (k & _ & _ & Hres); [reflexivity|lia|].
  unfold cell_In5, try_body. cbn [cwd i project_root] in *.
  destruct Hres as [[Hrun _]|(_ & _ & _ & Hrun)].
  - eexists. intros fuel Hf.
    rewrite (while_loop_more_fuel _ _ _ _ Hrun Hf). reflexivity.
  - eexists. intros fuel Hf.
    rewrite (while_loop_more_fuel _ _ _ _ Hrun Hf). reflexivity.
Qed.

Lemma while_loop_Done fuel : forall s s',
  while_loop has_license can_enter fuel s = Some (Done s') ->
  (i s' <? 4) && negb (has_license (cwd s')) = false.
Proof.
  induction fuel as [|fuel IH]; intros s s' H; [discriminate|].
  cbn [while_loop] in H.
  destruct ((i s <? 4) && negb (has_license (cwd s))) eqn:E.
  - unfold chdir in H. destruct (can_enter (parent (cwd s)));
      [|discriminate]. now apply IH in H.
  - inversion H; subst. exact E.
Qed.


(** Once a run has stopped below the limit of four levels, it has found a
    LICENSE, and running the cell again moves nowhere: same working
    directory, same [project_root], [i] back to 0. *)
Theorem found_root_is_stable fuel s0 s1 fuel' :
  cell_In5 has_license can_enter fuel s0 = Some (Done s1) ->
  i s1 < 4 ->
  (1 <= fuel')%nat ->
  has_license (cwd s1) = true /\
  cell_In5 has_license can_enter fuel' s1
  = Some (Done (mkState (cwd s1) 0 (project_root s1))).
Proof.
  unfold cell_In5, try_body. intros H Hi Hf.
  cbn [cwd i project_root] in H.
  destruct (while_loop has_license can_enter fuel
              (mkState (cwd s0) 0 (RootStr "somedir/freqtrade")))
    as [[s4|e s4]|] eqn:Hrun; try discriminate.
  inversion H; subst. cbn [cwd i project_root] in *.
  apply while_loop_Done in Hrun.
  destruct (Z.ltb_spec (i s4) 4); [|lia]. cbn [andb] in Hrun.
  apply negb_false_iff in Hrun. split; [exact Hrun|].
  destruct fuel' as [|fuel']; [lia|]. cbn [while_loop cwd i].
  rewrite Hrun. reflexivity.
Qed.


(** Not finding a LICENSE is not reported: when none of the directories 0
    to 3 levels above the start has one, the cell ends four levels up and
    takes that directory as [project_root], whether or not it has one. *)
Theorem missing_license_is_silent fuel s0 :
  (forall p, can_enter p = true) ->
  (forall j, (j < 4)%nat -> has_license (ancestor j (cwd s0)) = false) ->
  (5 <= fuel)%nat ->
  cell_In5 has_license can_enter fuel s0
  = Some (Done (mkState (ancestor 4 (cwd s0)) 4
                        (RootPath (ancestor 4 (cwd s0))))).
Proof.
  intros Hce Hno Hfuel. unfold cell_In5, try_body.
  destruct (while_loop_spec 4 fuel
              (mkState (cwd s0) 0 (RootStr "somedir/freqtrade")))
    as (k & Hk & _ & Hres); [reflexivity|lia|].
  cbn [cwd i project_root] in *.
  destruct Hres as [[Hrun Hlic]|(_ & _ & Hc & _)].
  - assert (k = 4%nat).
    { destruct (Nat.eq_dec k 4) as [|Hne]; [assumption|].
      assert (Hlt : (k < 4)%nat) by lia.
      rewrite (Hno k Hlt) in Hlic. specialize (Hlic Hlt). discriminate. }
    subst k. rewrite Hrun. reflexivity.
  - rewrite Hce in Hc. discriminate.
Qed.

End Search.

Lemma root_search_result_witness :
  exists k,
    (k <= 4)%nat /\
    cell_In5 Examples.license_in_checkout Examples.anywhere 5
             Examples.fresh_kernel
    = Some (Done (mkState (ancestor k Examples.notebook_dir) (Z.of_nat k)
                          (RootPath (ancestor k Examples.notebook_dir)))) /\
    ancestor k Examples.notebook_dir
    = firstn (List.length Examples.notebook_dir - k) Examples.notebook_dir /\
    (forall j, (j < k)%nat ->
               Examples.license_in_checkout
                 (ancestor j Examples.notebook_dir) = false) /\
    ((k < 4)%nat ->
     Examples.license_in_checkout (ancestor k Examples.notebook_dir) = true).
Proof.
  exact (root_search_result Examples.license_in_checkout Examples.anywhere
           5 Examples.fresh_kernel (fun p => eq_refl) (le_n 5)).
Defined.

Lemma root_search_terminates_witness :
  exists r, forall fuel,
      (5 <= fuel)%nat ->
      cell_In5 Examples.license_in_checkout Examples.anywhere fuel
               Examples.fresh_kernel = Some r.
Proof.
  exact (root_search_terminates Examples.license_in_checkout
           Examples.anywhere Examples.fresh_kernel).
Defined.

Lemma found_root_is_stable_witness :
  Examples.license_in_checkout Examples.checkout = true /\
  cell_In5 Examples.license_in_checkout Examples.anywhere 1
           (mkState Examples.checkout 2 (RootPath Examples.checkout))
  = Some (Done (mkState Examples.checkout 0 (RootPath Examples.checkout))).
Proof.
  exact (found_root_is_stable Examples.license_in_checkout Examples.anywhere
           5 Examples.fresh_kernel
           (mkState Examples.checkout 2 (RootPath Examples.checkout)) 1
           eq_refl eq_refl (le_n 1)).
Defined.


Lemma missing_license_is_silent_witness :
  cell_In5 Examples.no_license Examples.anywhere 5 Examples.fresh_kernel
  = Some (Done (mkState (ancestor 4 Examples.notebook_dir) 4
                        (RootPath (ancestor 4 Examples.notebook_dir)))).
Proof.
  exact (missing_license_is_silent Examples.no_license Examples.anywhere
           5 Examples.fresh_kernel (fun p => eq_refl) (fun j _ => eq_refl)
           (le_n 5)).
Defined.

End ProjectRootFacts.
